(** * Smart Life Hub: the reminder and expense stores, and the weather lookups

    A shallow embedding of [simpliefied2.py] (the dashboard) and of the
    morning brief script, with the properties of their specification.

    Python values are modelled by the type [pyval] of the values [json.load]
    can return.  Code that can raise is written in an exception monad
    ([result]); code that also reads or writes the backing file is written in
    a state and exception monad ([io]) over the state of that file.  Calls
    into libraries stand at the boundary of the model:
    - [json.load] and [json.dump]: a file is described by what [json.load]
      makes of its text, see [json_text];
    - [pd.read_csv] and [DataFrame.to_csv]: likewise, see [csv_text];
    - [datetime.strptime], and [float] with its arithmetic and formatting:
      interfaces ([Strptime], [FloatLib]) the stores are generic in, with the
      instances [py_strptime] and [float64] to run them. *)

From Stdlib Require Import String Ascii List ZArith Bool Lia PeanoNat.
From Stdlib Require Import DecimalString Floats Uint63.
Import ListNotations.

Local Open Scope string_scope.
Local Open Scope list_scope.

Set Warnings "-register-all".

(** ** Exceptions and the two monads

    An exception is named by the class it is raised with.  [ParserError]
    stands for what [pd.read_csv] raises on text it cannot read
    ([ParserError], [EmptyDataError]). *)

Inductive exn : Type :=
| FileNotFoundError
| JSONDecodeError
| ParserError
| TypeError
| ValueError
| KeyError (key : string)
| IndexError
| AttributeError (attr : string)
| NameError (name : string).

Inductive result (A : Type) : Type :=
| Ok (a : A)
| Raise (e : exn).

Arguments Ok {A} a.
Arguments Raise {A} e.

(** A computation over the state [S] of a backing file: the outcome and the
    state it leaves.  What was written before an exception stays written. *)
Definition io (S A : Type) : Type := S -> result A * S.

Class PyMonad (M : Type -> Type) : Type := {
  ret : forall {A : Type}, A -> M A;
  bind : forall {A B : Type}, M A -> (A -> M B) -> M B;
  raise : forall {A : Type}, exn -> M A;
  try_except : forall {A : Type}, M A -> (exn -> M A) -> M A
}.

#[export] Instance result_monad : PyMonad result := {
  ret := fun A a => Ok a;
  bind := fun A B m k => match m with Ok a => k a | Raise e => Raise e end;
  raise := fun A e => Raise e;
  try_except := fun A m h => match m with Ok a => Ok a | Raise e => h e end
}.

#[export] Instance io_monad (S : Type) : PyMonad (io S) := {
  ret := fun A a s => (Ok a, s);
  bind := fun A B m k s =>
    match m s with
    | (Ok a, s') => k a s'
    | (Raise e, s') => (Raise e, s')
    end;
  raise := fun A e s => (Raise e, s);
  try_except := fun A m h s =>
    match m s with
    | (Ok a, s') => (Ok a, s')
    | (Raise e, s') => h e s'
    end
}.

Notation "x <- m ;; k" := (bind m (fun x => k))
  (at level 61, m at next level, right associativity).
Notation "m ;;; k" := (bind m (fun _ => k))
  (at level 61, right associativity).

(** A computation that only raises, run where the file is at hand. *)
Definition lift {S A : Type} (m : result A) : io S A := fun s => (m, s).

(** [for x in xs: acc = body(acc, x)], an exception ending the loop. *)
Fixpoint for_each {A B : Type} (xs : list A) (acc : B)
  (body : B -> A -> result B) : result B :=
  match xs with
  | [] => Ok acc
  | x :: xs' =>
      match body acc x with
      | Ok acc' => for_each xs' acc' body
      | Raise e => Raise e
      end
  end.

(** [for x in xs: body(x)] where the body updates [x] in place. *)
Fixpoint for_each_update {A : Type} (xs : list A) (body : A -> result A)
  : result (list A) :=
  match xs with
  | [] => Ok []
  | x :: xs' =>
      match body x with
      | Ok x' =>
          match for_each_update xs' body with
          | Ok r => Ok (x' :: r)
          | Raise e => Raise e
          end
      | Raise e => Raise e
      end
  end.

(** ** Text

    A [str] is modelled by the bytes of its UTF-8 encoding. *)

Definition code (c : ascii) : nat := nat_of_ascii c.

Definition between (lo hi n : nat) : bool := (lo <=? n)%nat && (n <=? hi)%nat.

(** The number of bytes of the white-space character the text starts with, 0
    when it starts with none.  White space is what [str.isspace] accepts:
    U+0009 to U+000D, U+001C to U+0020, U+0085, U+00A0, U+1680, U+2000 to
    U+200A, U+2028, U+2029, U+202F, U+205F and U+3000. *)
Definition space_len (l : list ascii) : nat :=
  match map code l with
  | c :: rest =>
      if between 9 13 c || between 28 32 c then 1
      else match c, rest with
      | 194, d :: _ => if (d =? 133) || (d =? 160) then 2 else 0
      | 225, 154 :: 128 :: _ => 3
      | 226, 128 :: d :: _ =>
          if between 128 138 d || between 168 169 d || (d =? 175) then 3 else 0
      | 226, 129 :: 159 :: _ => 3
      | 227, 128 :: 128 :: _ => 3
      | _, _ => 0
      end
  | [] => 0
  end%nat.

(** The characters of a text: each a leading byte with the continuation
    bytes (128 to 191) after it. *)
Definition continuation (c : ascii) : bool := between 128 191 (code c).

Fixpoint characters (l : list ascii) : list (list ascii) :=
  match l with
  | [] => []
  | c :: r =>
      match characters r with
      | (d :: ch) :: chs =>
          if continuation d then (c :: d :: ch) :: chs
          else [c] :: (d :: ch) :: chs
      | chs => [c] :: chs
      end
  end.

Definition is_space (ch : list ascii) : bool :=
  negb (space_len ch =? 0)%nat && (space_len ch =? length ch)%nat.

Fixpoint drop_spaces (chs : list (list ascii)) : list (list ascii) :=
  match chs with
  | ch :: r => if is_space ch then drop_spaces r else chs
  | [] => []
  end.

(** [s.strip()] *)
Definition strip (s : string) : string :=
  string_of_list_ascii
    (concat (rev (drop_spaces (rev (drop_spaces
       (characters (list_ascii_of_string s))))))).

(** [needle in s] for two texts *)
Fixpoint str_contains (needle s : string) : bool :=
  prefix needle s ||
  match s with
  | EmptyString => false
  | String _ s' => str_contains needle s'
  end.

Definition is_upper (c : ascii) : bool := between 65 90 (code c).
Definition is_lower (c : ascii) : bool := between 97 122 (code c).
Definition to_lower (c : ascii) : ascii :=
  if is_upper c then ascii_of_nat (code c + 32) else c.
Definition to_upper (c : ascii) : ascii :=
  if is_lower c then ascii_of_nat (code c - 32) else c.

(** [s.title()], on the letters of ASCII: a letter after a letter is put in
    lower case, any other letter in upper case. *)
Fixpoint title_from (after_letter : bool) (s : string) : string :=
  match s with
  | EmptyString => EmptyString
  | String c s' =>
      if is_upper c || is_lower c
      then String (if after_letter then to_lower c else to_upper c)
                  (title_from true s')
      else String c (title_from false s')
  end.

Definition title (s : string) : string := title_from false s.

(** [str(n)] for a count *)
Definition str_of_nat (n : nat) : string :=
  NilZero.string_of_uint (Nat.to_uint n).

(** ** Python values

    What [json.load] returns: [None], booleans, numbers, texts, lists, and
    dictionaries with text keys.  A dictionary keeps its keys in the order
    they were inserted.  A number is kept as an integer: the stores never
    look inside one. *)

Inductive pyval : Type :=
| PNone
| PBool (b : bool)
| PNum (n : Z)
| PStr (s : string)
| PList (l : list pyval)
| PDict (d : list (string * pyval)).

Definition dict := list (string * pyval).

Fixpoint dict_get (k : string) (d : dict) : option pyval :=
  match d with
  | [] => None
  | (k', v) :: d' => if String.eqb k k' then Some v else dict_get k d'
  end.

Definition dict_mem (k : string) (d : dict) : bool :=
  match dict_get k d with Some _ => true | None => false end.

(** [d[k] = v]: the value of an old key is replaced where it stands, a new
    key goes to the end. *)
Fixpoint dict_set (k : string) (v : pyval) (d : dict) : dict :=
  match d with
  | [] => [(k, v)]
  | (k', v') :: d' =>
      if String.eqb k k' then (k', v) :: d' else (k', v') :: dict_set k v d'
  end.

Definition is_str (s : string) (v : pyval) : bool :=
  match v with PStr s' => String.eqb s s' | _ => false end.

(** [for x in o]: the elements of a list, the keys of a dictionary, the
    characters of a text; nothing else is iterable. *)
Definition py_iter (o : pyval) : result (list pyval) :=
  match o with
  | PList l => Ok l
  | PDict d => Ok (map (fun kv => PStr (fst kv)) d)
  | PStr s =>
      Ok (map (fun ch => PStr (string_of_list_ascii ch))
              (characters (list_ascii_of_string s)))
  | _ => Raise TypeError
  end.

(** [k in o] for a text [k] *)
Definition contains (k : string) (o : pyval) : result bool :=
  match o with
  | PDict d => Ok (dict_mem k d)
  | PList l => Ok (existsb (is_str k) l)
  | PStr s => Ok (str_contains k s)
  | _ => Raise TypeError
  end.

(** [o[k]] for a text [k] *)
Definition getitem (o : pyval) (k : string) : result pyval :=
  match o with
  | PDict d =>
      match dict_get k d with
      | Some v => Ok v
      | None => Raise (KeyError k)
      end
  | _ => Raise TypeError
  end.

(** [o[i]] for an integer [i] *)
Definition getitem_int (o : pyval) (i : Z) : result pyval :=
  match o with
  | PList l =>
      let n := Z.of_nat (length l) in
      let j := if (i <? 0)%Z then (i + n)%Z else i in
      if ((j <? 0) || (n <=? j))%Z then Raise IndexError
      else match nth_error l (Z.to_nat j) with
           | Some v => Ok v
           | None => Raise IndexError
           end
  | PStr s =>
      let chs := characters (list_ascii_of_string s) in
      let n := Z.of_nat (length chs) in
      let j := if (i <? 0)%Z then (i + n)%Z else i in
      if ((j <? 0) || (n <=? j))%Z then Raise IndexError
      else match nth_error chs (Z.to_nat j) with
           | Some ch => Ok (PStr (string_of_list_ascii ch))
           | None => Raise IndexError
           end
  | PDict _ => Raise (KeyError (str_of_nat (Z.to_nat i)))
  | _ => Raise TypeError
  end.

(** [o[k] = v] for a text [k]: the object after the assignment *)
Definition setitem (o : pyval) (k : string) (v : pyval) : result pyval :=
  match o with
  | PDict d => Ok (PDict (dict_set k v d))
  | _ => Raise TypeError
  end.

(** [o.get(k)] *)
Definition py_get (o : pyval) (k : string) : result pyval :=
  match o with
  | PDict d =>
      match dict_get k d with
      | Some v => Ok v
      | None => Ok PNone
      end
  | _ => Raise (AttributeError "get")
  end.

(** [o.append(x)]: the object after the call *)
Definition append (o : pyval) (x : pyval) : result pyval :=
  match o with
  | PList l => Ok (PList (l ++ [x]))
  | _ => Raise (AttributeError "append")
  end.

(** The truth value of an object, as [if] and [not] take it. *)
Definition truthy (v : pyval) : bool :=
  match v with
  | PNone => false
  | PBool b => b
  | PNum n => negb (n =? 0)%Z
  | PStr s => negb (String.eqb s "")
  | PList l => match l with [] => false | _ => true end
  | PDict d => match d with [] => false | _ => true end
  end.

(** [v == n] for an integer [n] *)
Definition eq_int (v : pyval) (n : Z) : bool :=
  match v with
  | PNum m => (m =? n)%Z
  | PBool b => ((if b then 1 else 0) =? n)%Z
  | _ => false
  end.

(** ** The reminder file

    The backing file of the reminders, as [json.load] sees its text: text it
    cannot decode, or the text of a value.  [json.dump] writes the text of
    the value it is given.  A store is such a file, or no file. *)

Inductive json_text : Type :=
| Undecodable (raw : string)
| Encodes (v : pyval).

Definition json_file : Type := option json_text.

(** [open(file_path, "r")] *)
Definition open_r {T : Type} : io (option T) T :=
  fun fs =>
    match fs with
    | Some text => (Ok text, fs)
    | None => (Raise FileNotFoundError, fs)
    end.

(** [open(file_path, "w")] and the write of the whole text *)
Definition write_file {T : Type} (text : T) : io (option T) unit :=
  fun _ => (Ok tt, Some text).

Definition json_load (f : json_text) : result pyval :=
  match f with
  | Undecodable _ => Raise JSONDecodeError
  | Encodes v => Ok v
  end.

Definition json_dump (v : pyval) : json_text := Encodes v.

(** ** Dates and times

    A naive [datetime.datetime]. *)

Record datetime : Type := {
  year : Z; month : Z; day : Z;
  hour : Z; minute : Z; second : Z; microsecond : Z
}.

Fixpoint lex_le (a b : list Z) : bool :=
  match a, b with
  | x :: a', y :: b' => (x <? y)%Z || ((x =? y)%Z && lex_le a' b')
  | [], _ => true
  | _ :: _, [] => false
  end.

(** [t.date()] *)
Definition date_of (t : datetime) : list Z := [year t; month t; day t].

Definition instant_of (t : datetime) : list Z :=
  [year t; month t; day t; hour t; minute t; second t; microsecond t].

(** [t1 <= t2] on two datetimes, and on two dates *)
Definition datetime_le (t1 t2 : datetime) : bool :=
  lex_le (instant_of t1) (instant_of t2).

Definition date_le (d1 d2 : list Z) : bool := lex_le d1 d2.

(** [datetime.datetime.strptime(data, format)] for a text [data]: the
    library the reminders are generic in. *)
Class Strptime : Type :=
  strptime : string -> string -> result datetime.

(** The call as the program makes it, on any object: a [data] that is no
    text is a [TypeError]. *)
Definition datetime_strptime `{Strptime} (data : pyval) (format : string)
  : result datetime :=
  match data with
  | PStr s => strptime s format
  | _ => Raise TypeError
  end.

(** *** A model of [strptime]

    As [_strptime] does it: the format becomes a regular expression, each
    directive a group of alternatives tried in order, a run of white space
    one or more white-space characters, any other character itself without
    regard to case; the first match, in the order a backtracking matcher
    finds them, has to reach the end of the data.  The directives are those
    the program uses, [%Y %m %d %H %M], and [%%]; a digit is an ASCII digit,
    and white space in a format is a single byte. *)

Record fields : Type := {
  f_year : Z; f_month : Z; f_day : Z; f_hour : Z; f_minute : Z
}.

Definition default_fields : fields :=
  {| f_year := 1900; f_month := 1; f_day := 1; f_hour := 0; f_minute := 0 |}.

Definition set_field (c : ascii) (v : Z) (f : fields) : fields :=
  match c with
  | "Y"%char => {| f_year := v; f_month := f_month f; f_day := f_day f;
                   f_hour := f_hour f; f_minute := f_minute f |}
  | "m"%char => {| f_year := f_year f; f_month := v; f_day := f_day f;
                   f_hour := f_hour f; f_minute := f_minute f |}
  | "d"%char => {| f_year := f_year f; f_month := f_month f; f_day := v;
                   f_hour := f_hour f; f_minute := f_minute f |}
  | "H"%char => {| f_year := f_year f; f_month := f_month f; f_day := f_day f;
                   f_hour := v; f_minute := f_minute f |}
  | "M"%char => {| f_year := f_year f; f_month := f_month f; f_day := f_day f;
                   f_hour := f_hour f; f_minute := v |}
  | _ => f
  end.

Definition in_range (lo hi c : ascii) : bool :=
  between (code lo) (code hi) (code c).

Definition is_digit (c : ascii) : bool := in_range "0" "9" c.

Definition digit (c : ascii) : Z := Z.of_nat (code c - 48).

(** One alternative of a group: the value it reads and the data left. *)
Definition alt1 (p : ascii -> bool) (data : list ascii)
  : list (Z * list ascii) :=
  match data with
  | c :: rest => if p c then [(digit c, rest)] else []
  | [] => []
  end.

Definition alt2 (p1 p2 : ascii -> bool) (data : list ascii)
  : list (Z * list ascii) :=
  match data with
  | c1 :: c2 :: rest =>
      if p1 c1 && p2 c2 then [(10 * digit c1 + digit c2, rest)%Z] else []
  | _ => []
  end.

Definition alt4 (data : list ascii) : list (Z * list ascii) :=
  match data with
  | c1 :: c2 :: c3 :: c4 :: rest =>
      if is_digit c1 && is_digit c2 && is_digit c3 && is_digit c4
      then [(1000 * digit c1 + 100 * digit c2 + 10 * digit c3 + digit c4,
             rest)%Z]
      else []
  | _ => []
  end.

(** The groups: [%Y] is [\d\d\d\d], [%m] is [1[0-2]|0[1-9]|[1-9]], [%d] is
    [3[01]|[12]\d|0[1-9]|[1-9]| [1-9]], [%H] is [2[0-3]|[0-1]\d|\d] and [%M]
    is [[0-5]\d|\d]. *)
Definition directive (c : ascii) (data : list ascii)
  : list (Z * list ascii) :=
  match c with
  | "Y"%char => alt4 data
  | "m"%char =>
      alt2 (Ascii.eqb "1") (in_range "0" "2") data ++
      alt2 (Ascii.eqb "0") (in_range "1" "9") data ++
      alt1 (in_range "1" "9") data
  | "d"%char =>
      alt2 (Ascii.eqb "3") (in_range "0" "1") data ++
      alt2 (in_range "1" "2") is_digit data ++
      alt2 (Ascii.eqb "0") (in_range "1" "9") data ++
      alt1 (in_range "1" "9") data ++
      match data with
      | " "%char :: rest => alt1 (in_range "1" "9") rest
      | _ => []
      end
  | "H"%char =>
      alt2 (Ascii.eqb "2") (in_range "0" "3") data ++
      alt2 (in_range "0" "1") is_digit data ++
      alt1 is_digit data
  | "M"%char =>
      alt2 (in_range "0" "5") is_digit data ++
      alt1 is_digit data
  | _ => []
  end.

Definition known_directive (c : ascii) : bool :=
  existsb (Ascii.eqb c) ["Y"; "m"; "d"; "H"; "M"; "%"]%char.

Fixpoint bad_directive (fmt : list ascii) : bool :=
  match fmt with
  | "%"%char :: c :: fmt' => negb (known_directive c) || bad_directive fmt'
  | ["%"%char] => true
  | _ :: fmt' => bad_directive fmt'
  | [] => false
  end.

(** What is left of the data after one, two, ... white-space characters. *)
Fixpoint space_rests (fuel : nat) (data : list ascii) : list (list ascii) :=
  match fuel with
  | O => []
  | S fuel' =>
      match space_len data with
      | O => []
      | n => skipn n data :: space_rests fuel' (skipn n data)
      end
  end.

(** [\s+] is greedy: the longest run first. *)
Definition space_runs (data : list ascii) : list (list ascii) :=
  rev (space_rests (length data) data).

(** The matches of a format against the data, in the order of the matcher:
    the fields read and the data left.  [after_space] says that the
    character of the format before was white space. *)
Fixpoint matches (fmt : list ascii) (after_space : bool) (data : list ascii)
  (acc : fields) : list (fields * list ascii) :=
  match fmt with
  | [] => [(acc, data)]
  | "%"%char :: "%"%char :: fmt' =>
      match data with
      | "%"%char :: rest => matches fmt' false rest acc
      | _ => []
      end
  | "%"%char :: c :: fmt' =>
      flat_map (fun alt => matches fmt' false (snd alt) (set_field c (fst alt) acc))
               (directive c data)
  | c :: fmt' =>
      if (space_len [c] =? 1)%nat then
        if after_space then matches fmt' true data acc
        else flat_map (fun rest => matches fmt' true rest acc)
                      (space_runs data)
      else
        match data with
        | d :: rest =>
            if Ascii.eqb (to_lower c) (to_lower d)
            then matches fmt' false rest acc else []
        | [] => []
        end
  end.

Definition leap (y : Z) : bool :=
  ((y mod 4 =? 0) && (negb (y mod 100 =? 0) || (y mod 400 =? 0)))%Z.

Definition days_in_month (y m : Z) : Z :=
  if (m =? 2)%Z then (if leap y then 29 else 28)
  else if ((m =? 4) || (m =? 6) || (m =? 9) || (m =? 11))%Z then 30
  else 31.

(** [datetime(year, month, day, hour, minute)]: the year is 1 to 9999 and
    the day is one of the month. *)
Definition make_datetime (f : fields) : result datetime :=
  if ((1 <=? f_year f) && (f_year f <=? 9999) &&
      (1 <=? f_month f) && (f_month f <=? 12) &&
      (1 <=? f_day f) && (f_day f <=? days_in_month (f_year f) (f_month f)) &&
      (0 <=? f_hour f) && (f_hour f <=? 23) &&
      (0 <=? f_minute f) && (f_minute f <=? 59))%Z
  then Ok {| year := f_year f; month := f_month f; day := f_day f;
             hour := f_hour f; minute := f_minute f;
             second := 0; microsecond := 0 |}
  else Raise ValueError.

#[export] Instance py_strptime : Strptime :=
  fun data format =>
    let fmt := list_ascii_of_string format in
    if bad_directive fmt then Raise ValueError
    else
      match matches fmt false (list_ascii_of_string data) default_fields with
      | (f, []) :: _ => make_datetime f
      | _ => Raise ValueError
      end.

(** ** ReminderManager *)

Module ReminderManager.

(** The body of the loop of [load]:
    [if "completed" not in task: task["completed"] = False]. *)
Definition default_completed (task : pyval) : result pyval :=
  present <- contains "completed" task ;;
  if negb present then setitem task "completed" (PBool false)
  else ret task.

(** The object [data] after the loop has run over its items: the elements
    of a list are updated in place; the keys of a dictionary and the
    characters of a text are texts, which no assignment changes. *)
Definition updated (data : pyval) (items : list pyval) : pyval :=
  match data with
  | PList _ => PList items
  | _ => data
  end.

Definition load : io json_file pyval :=
  try_except
    (f <- open_r ;;
     data <- lift (json_load f) ;;
     items <- lift (py_iter data) ;;
     items' <- lift (for_each_update items default_completed) ;;
     ret (updated data items'))
    (fun e =>
       match e with
       | FileNotFoundError => ret (PList [])
       | _ => raise e
       end).

Definition save (tasks : pyval) : io json_file unit :=
  write_file (json_dump tasks).

Definition add (task_text date_time : string) : io json_file unit :=
  tasks <- load ;;
  tasks' <- lift (append tasks
                    (PDict [("task", PStr (strip task_text));
                            ("time", PStr date_time);
                            ("completed", PBool false)])) ;;
  save tasks'.

Section CheckReminders.

Context {lib : Strptime}.

(** The body of the loop of [check_reminders], from the notifications so
    far to those after the task.  A bare [except] catches whatever the
    [try] block raises. *)
Definition check_one (now : datetime) (notifications : list pyval)
  (task : pyval) : result (list pyval) :=
  completed <- getitem task "completed" ;;
  if negb (truthy completed) then
    try_except
      (time <- getitem task "time" ;;
       task_time <- datetime_strptime time "%Y-%m-%d %H:%M" ;;
       if datetime_le task_time now then
         text <- getitem task "task" ;;
         ret (notifications ++ [text])
       else ret notifications)
      (fun _ =>
         try_except
           (time <- getitem task "time" ;;
            task_time <- datetime_strptime time "%Y-%m-%d" ;;
            if date_le (date_of task_time) (date_of now) then
              text <- getitem task "task" ;;
              ret (notifications ++ [text])
            else ret notifications)
           (fun _ => ret notifications))
  else ret notifications.

(** [now] stands for the [datetime.datetime.now()] the method reads. *)
Definition check_reminders (now : datetime) : io json_file (list pyval) :=
  tasks <- load ;;
  items <- lift (py_iter tasks) ;;
  lift (for_each items [] (check_one now)).

End CheckReminders.

(** [add] called for each pair of a list, in order *)
Fixpoint add_all (calls : list (string * string)) : io json_file unit :=
  match calls with
  | [] => ret tt
  | (task_text, date_time) :: calls' =>
      add task_text date_time ;;; add_all calls'
  end.

End ReminderManager.

(** ** Reminder records, as the specification describes them

    A valid record is a dictionary whose [task] and [time] are texts and
    whose [completed], when it has one, is a boolean. *)

Definition is_text (v : option pyval) : bool :=
  match v with Some (PStr _) => true | _ => false end.

Definition is_bool_or_absent (v : option pyval) : bool :=
  match v with Some (PBool _) | None => true | _ => false end.

Definition valid_reminder (r : pyval) : bool :=
  match r with
  | PDict d =>
      is_text (dict_get "task" d) && is_text (dict_get "time" d) &&
      is_bool_or_absent (dict_get "completed" d)
  | _ => false
  end.

Definition field (k : string) (r : pyval) : option pyval :=
  match r with
  | PDict d => dict_get k d
  | _ => None
  end.

Definition time_text (r : pyval) : string :=
  match field "time" r with Some (PStr s) => s | _ => "" end.

Definition task_text (r : pyval) : pyval :=
  match field "task" r with Some v => v | None => PNone end.

(** The completion flag of a record, [false] when it has none. *)
Definition is_completed (r : pyval) : bool :=
  match field "completed" r with Some (PBool b) => b | _ => false end.

(** The record with its [completed] defaulted to [False]. *)
Definition with_completed (r : pyval) : pyval :=
  match r with
  | PDict d => if dict_mem "completed" d then r
               else PDict (d ++ [("completed", PBool false)])
  | _ => r
  end.

(** A reminder is due, in the words of the specification: it is incomplete
    and either its time parses as a date and time that is not after [now],
    or it fails that parse, parses as a date, and the date is not after the
    date of [now]. *)
Definition due `{Strptime} (now : datetime) (r : pyval) : bool :=
  negb (is_completed r) &&
  match strptime (time_text r) "%Y-%m-%d %H:%M" with
  | Ok t => datetime_le t now
  | Raise _ =>
      match strptime (time_text r) "%Y-%m-%d" with
      | Ok t => date_le (date_of t) (date_of now)
      | Raise _ => false
      end
  end.

(** The time of a record matches neither format. *)
Definition unparseable `{Strptime} (r : pyval) : bool :=
  match strptime (time_text r) "%Y-%m-%d %H:%M",
        strptime (time_text r) "%Y-%m-%d" with
  | Raise _, Raise _ => true
  | _, _ => false
  end.

(** ** The expense file and ExpenseManager

    [F] is the type of a [float]; the library around it is what the expense
    manager asks of Python and pandas. *)

Class FloatLib (F : Type) : Type := {
  (** [float(s)] for a text [s], [None] where it raises [ValueError] *)
  float_of_text : string -> option F;
  (** [Series.sum()] and [Series.mean()] of a column *)
  series_sum : list F -> F;
  series_mean : list F -> F;
  (** [x <= y] *)
  float_le : F -> F -> bool;
  (** [format(x, ".2f")] *)
  format_2f : F -> string
}.

(** What a caller can pass as an amount: a number, a text, or an object
    that is neither, such as [None]. *)
Inductive amount_arg (F : Type) : Type :=
| Number (x : F)
| Text (s : string)
| Neither.

Arguments Number {F} x.
Arguments Text {F} s.
Arguments Neither {F}.

Record Expense (F : Type) : Type := {
  Item : string;
  Amount : F;
  Date : string
}.

Arguments Item {F} e.
Arguments Amount {F} e.
Arguments Date {F} e.

Record DataFrame (F : Type) : Type := {
  columns : list string;
  rows : list (Expense F)
}.

Arguments columns {F} d.
Arguments rows {F} d.

(** The backing file of the expenses, as [pd.read_csv] sees its text: text
    it cannot parse, or the text of a table under the header
    [Item,Amount,Date].  [to_csv] writes the text of the table it is
    given. *)
Inductive csv_text (F : Type) : Type :=
| Unparseable (raw : string)
| Table (expenses : list (Expense F)).

Arguments Unparseable {F} raw.
Arguments Table {F} expenses.

Definition csv_file (F : Type) : Type := option (csv_text F).

Module ExpenseManager.

Section WithFloat.

Context {F : Type} {lib : FloatLib F}.

Definition header : list string := ["Item"; "Amount"; "Date"].

Definition read_csv (f : csv_text F) : result (DataFrame F) :=
  match f with
  | Unparseable _ => Raise ParserError
  | Table expenses => Ok {| columns := header; rows := expenses |}
  end.

Definition to_csv (df : DataFrame F) : csv_text F := Table (rows df).

(** [float(amount)] *)
Definition py_float (amount : amount_arg F) : result F :=
  match amount with
  | Number x => Ok x
  | Text s =>
      match float_of_text s with
      | Some x => Ok x
      | None => Raise ValueError
      end
  | Neither => Raise TypeError
  end.

(** [df.empty] *)
Definition empty (df : DataFrame F) : bool :=
  match columns df, rows df with
  | [], _ | _, [] => true
  | _, _ => false
  end.

(** [pd.concat([df, new_row], ignore_index=True)] for a one-row frame *)
Definition concat (df : DataFrame F) (new_row : Expense F) : DataFrame F :=
  {| columns := columns df; rows := rows df ++ [new_row] |}.

(** [idxmax] and [idxmin] of a column, as numpy's [argmax] and [argmin]
    scan it: the position changes when the value met is not [<=] (not [>=])
    the best so far. *)
Fixpoint argmax_from (best : F) (best_i i : nat) (xs : list F) : nat :=
  match xs with
  | [] => best_i
  | x :: xs' =>
      if negb (float_le x best) then argmax_from x i (S i) xs'
      else argmax_from best best_i (S i) xs'
  end.

Fixpoint argmin_from (best : F) (best_i i : nat) (xs : list F) : nat :=
  match xs with
  | [] => best_i
  | x :: xs' =>
      if negb (float_le best x) then argmin_from x i (S i) xs'
      else argmin_from best best_i (S i) xs'
  end.

Definition idxmax (xs : list F) : result nat :=
  match xs with
  | [] => Raise ValueError
  | x :: xs' => Ok (argmax_from x 0 1 xs')
  end.

Definition idxmin (xs : list F) : result nat :=
  match xs with
  | [] => Raise ValueError
  | x :: xs' => Ok (argmin_from x 0 1 xs')
  end.

(** [df.loc[i]] under the index 0, 1, ... that [read_csv] gives *)
Definition loc (df : DataFrame F) (i : nat) : result (Expense F) :=
  match nth_error (rows df) i with
  | Some row => Ok row
  | None => Raise (KeyError (str_of_nat i))
  end.

Definition load : io (csv_file F) (DataFrame F) :=
  try_except
    (f <- open_r ;;
     lift (read_csv f))
    (fun e =>
       match e with
       | FileNotFoundError => ret {| columns := header; rows := [] |}
       | _ => raise e
       end).

Definition save (df : DataFrame F) : io (csv_file F) unit :=
  write_file (to_csv df).

Definition add (item : string) (amount : amount_arg F) (date_str : string)
  : io (csv_file F) unit :=
  df <- load ;;
  x <- lift (py_float amount) ;;
  let new_row := {| Item := item; Amount := x; Date := date_str |} in
  let df := concat df new_row in
  save df.

Definition get_spending_insights : io (csv_file F) (list string) :=
  df <- load ;;
  if empty df then ret ["No expenses yet to analyze"]
  else
    let total := series_sum (map Amount (rows df)) in
    let avg := series_mean (map Amount (rows df)) in
    let item_count := length (rows df) in
    let insights :=
      [("💰 Total spent: ₹" ++ format_2f total)%string;
       ("📊 Average per expense: ₹" ++ format_2f avg)%string;
       ("📝 Total expenses: " ++ str_of_nat item_count)%string] in
    if negb (empty df) then
      max_idx <- lift (idxmax (map Amount (rows df))) ;;
      max_item <- lift (loc df max_idx) ;;
      let insights := insights ++
        [("🔥 Most expensive: " ++ Item max_item ++ " - ₹" ++
          format_2f (Amount max_item))%string] in
      min_idx <- lift (idxmin (map Amount (rows df))) ;;
      min_item <- lift (loc df min_idx) ;;
      let insights := insights ++
        [("💸 Cheapest: " ++ Item min_item ++ " - ₹" ++
          format_2f (Amount min_item))%string] in
      ret insights
    else ret insights.

End WithFloat.

End ExpenseManager.

(** ** The floats of Python

    An instance of the library on binary64, to run the expense manager:
    [float(s)] and [format(x, ".2f")] round correctly, to the nearest with
    ties to even; a column is summed from left to right and its mean is the
    sum over the count. *)

Module Float64.

Definition str_of_Z (z : Z) : string :=
  NilZero.string_of_uint (N.to_uint (Z.to_N z)).

(** [n / d] to the nearest integer, ties to even, for [0 <= n] and [0 < d] *)
Definition round_half_even (n d : Z) : Z :=
  let q := (n / d)%Z in
  match (2 * (n mod d) ?= d)%Z with
  | Lt => q
  | Gt => (q + 1)%Z
  | Eq => if Z.even q then q else (q + 1)%Z
  end.

(** The hundredths in [m * 2^e], rounded *)
Definition hundredths (m : positive) (e : Z) : Z :=
  if (0 <=? e)%Z then (Zpos m * 2 ^ e * 100)%Z
  else round_half_even (Zpos m * 100) (2 ^ (- e)).

Definition fixed2 (negative : bool) (h : Z) : string :=
  ((if negative then "-" else "") ++ str_of_Z (h / 100) ++ "." ++
   (if (h mod 100 <? 10)%Z then "0" else "") ++ str_of_Z (h mod 100))%string.

Definition format_2f (x : float) : string :=
  match Prim2SF x with
  | S754_nan => "nan"
  | S754_infinity s => if s then "-inf" else "inf"
  | S754_zero s => fixed2 s 0
  | S754_finite s m e => fixed2 s (hundredths m e)
  end.

(** [m * 10^k] for a mantissa of [nd] decimal digits, rounded to binary64 *)
Definition of_decimal (negative : bool) (m : Z) (nd k : Z) : float :=
  SF2Prim
    match m with
    | Zpos p =>
        if (400 <? k + nd)%Z then S754_infinity negative
        else if (k + nd <? -400)%Z then S754_zero negative
        else if (0 <=? k)%Z
        then binary_round prec emax negative (Z.to_pos (m * 10 ^ k)) 0
        else
          let d := (10 ^ (- k))%Z in
          let s := Z.max 0 (64 + Z.log2 d - Z.log2 m) in
          let n := (m * 2 ^ s)%Z in
          let l := if (n mod d =? 0)%Z then loc_Exact
                   else loc_Inexact (2 * (n mod d) ?= d)%Z in
          binary_round_aux prec emax negative (n / d) (- s) l
    | _ => S754_zero negative
    end.

(** A [digitpart] after its first digit: digits, each after at most one
    underscore.  The value and the count of the digits so far are carried
    along; the text left is returned with them. *)
Fixpoint more_digits (l : list ascii) (m nd : Z) : Z * Z * list ascii :=
  match l with
  | c :: r =>
      if is_digit c then more_digits r (10 * m + digit c)%Z (nd + 1)%Z
      else if Ascii.eqb c "_" then
        match r with
        | d :: r' =>
            if is_digit d then more_digits r' (10 * m + digit d)%Z (nd + 1)%Z
            else (m, nd, l)
        | [] => (m, nd, l)
        end
      else (m, nd, l)
  | [] => (m, nd, l)
  end.

Definition digitpart (l : list ascii) (m nd : Z)
  : option (Z * Z * list ascii) :=
  match l with
  | c :: r => if is_digit c
              then Some (more_digits r (10 * m + digit c)%Z (nd + 1)%Z)
              else None
  | [] => None
  end.

Definition sign (l : list ascii) : bool * list ascii :=
  match l with
  | "-"%char :: r => (true, r)
  | "+"%char :: r => (false, r)
  | _ => (false, l)
  end.

(** The exponent of a number, 0 when it has none, and the text left. *)
Definition exponent (l : list ascii) : option (Z * list ascii) :=
  match l with
  | c :: r =>
      if Ascii.eqb (to_lower c) "e" then
        let (negative, r') := sign r in
        match digitpart r' 0 0 with
        | Some (e, _, rest) => Some (if negative then (- e)%Z else e, rest)
        | None => None
        end
      else Some (0%Z, l)
  | [] => Some (0%Z, l)
  end.

(** [digitpart ["." [digitpart]]] or ["." digitpart]: the digits as an
    integer, their count, the count of those after the point, and the text
    left. *)
Definition number (l : list ascii) : option (Z * Z * Z * list ascii) :=
  match digitpart l 0 0 with
  | Some (m, nd, "."%char :: r) =>
      match digitpart r m nd with
      | Some (m', nd', rest) => Some (m', nd', (nd' - nd)%Z, rest)
      | None => Some (m, nd, 0%Z, r)
      end
  | Some (m, nd, rest) => Some (m, nd, 0%Z, rest)
  | None =>
      match l with
      | "."%char :: r =>
          match digitpart r 0 0 with
          | Some (m, nd, rest) => Some (m, nd, nd, rest)
          | None => None
          end
      | _ => None
      end
  end.

(** [float(s)]: white space around is dropped; a sign, then [inf],
    [infinity] or [nan] in any case, or a decimal number with an optional
    exponent. *)
Definition float_of_text (s : string) : option float :=
  let (negative, body) := sign (list_ascii_of_string (strip s)) in
  let word := string_of_list_ascii (map to_lower body) in
  if String.eqb word "inf" || String.eqb word "infinity"
  then Some (if negative then neg_infinity else infinity)
  else if String.eqb word "nan" then Some nan
  else
    match number body with
    | Some (m, nd, frac, rest) =>
        match exponent rest with
        | Some (e, []) => Some (of_decimal negative m nd (e - frac))
        | _ => None
        end
    | None => None
    end.

Definition of_nat (n : nat) : float :=
  PrimFloat.of_uint63 (Uint63.of_Z (Z.of_nat n)).

Definition sum (xs : list float) : float :=
  fold_left PrimFloat.add xs PrimFloat.zero.

Definition mean (xs : list float) : float :=
  PrimFloat.div (sum xs) (of_nat (length xs)).

End Float64.

#[export] Instance float64 : FloatLib float := {
  float_of_text := Float64.float_of_text;
  series_sum := Float64.sum;
  series_mean := Float64.mean;
  float_le := PrimFloat.leb;
  format_2f := Float64.format_2f
}.

(** ** The weather and news lookups

    [requests.get(url)] raises, or returns a response whose [.json()]
    raises or returns an object.  What the providers answer is a parameter
    of the model. *)

Record response : Type := { json : result pyval }.

Class Requests : Type :=
  requests_get : string -> result response.

(** A text put together from the [str()] of its parts, as an f-string or
    the arguments of [print] give them. *)
Definition parts : Type := list pyval.

(** [o.get(k, default)] *)
Definition py_get_default (o : pyval) (k : string) (default : pyval)
  : result pyval :=
  match o with
  | PDict d =>
      match dict_get k d with
      | Some v => Ok v
      | None => Ok default
      end
  | _ => Raise (AttributeError "get")
  end.

(** [o[:n]] *)
Definition slice_to (o : pyval) (n : nat) : result pyval :=
  match o with
  | PList l => Ok (PList (firstn n l))
  | PStr s =>
      Ok (PStr (string_of_list_ascii
                  (List.concat (firstn n (characters (list_ascii_of_string s))))))
  | _ => Raise TypeError
  end.

(** [o.title()] *)
Definition py_title (o : pyval) : result string :=
  match o with
  | PStr s => Ok (title s)
  | _ => Raise (AttributeError "title")
  end.

(** The value of a local variable; one that was never assigned has no
    value, and reading it is a [NameError]. *)
Definition read_var {A : Type} (name : string) (v : option A) : result A :=
  match v with
  | Some x => Ok x
  | None => Raise (NameError name)
  end.

(** *** The weather section of the morning brief

    The console holds the prompt of [input] and the arguments of each
    [print], in order. *)

Module MorningBrief.

Definition console : Type := list parts.

Definition print (args : parts) : io console unit :=
  fun out => (Ok tt, out ++ [args]).

Definition weather_emojis : list (string * string) :=
  [("Few Clouds", "🌤️"); ("Clear", "☀️"); ("Clear Sky", "☀️");
   ("Clouds", "☁️"); ("Rain", "🌧️"); ("Drizzle", "🌦️");
   ("Thunderstorm", "⛈️"); ("Snow", "❄️"); ("Mist", "🌫️");
   ("Fog", "🌁"); ("Haze", "🌫️"); ("Smog", "💨")].

Fixpoint lookup (k : string) (d : list (string * string)) (default : string)
  : string :=
  match d with
  | [] => default
  | (k', v) :: d' => if String.eqb k k' then v else lookup k d' default
  end.

(** The variables the two branches of the [if] leave: [temperature] and
    [condition] are assigned in the [else] branch only. *)
Record locals : Type := {
  temperature : option pyval;
  condition : option string
}.

(** Lines 15 to 53 of the script.  [city_name] is what the user types at
    the prompt and [API_Key] the key the script holds. *)
Definition weather `{Requests} (API_Key city_name : string)
  : io console unit :=
  print [] ;;;
  print [PStr "⛅Weather"] ;;;
  print [PStr "Enter the city: "] ;;;
  let url := ("https://api.openweathermap.org/data/2.5/weather?q=" ++
              city_name ++ "&appid=" ++ API_Key ++ "&units=metric")%string in
  response <- lift (requests_get url) ;;
  again <- lift (requests_get url) ;;
  weather_data <- lift (json again) ;;
  cod <- lift (py_get weather_data "cod") ;;
  vars <-
    (if negb (eq_int cod 200) then
       print [PStr "City not found! Please check spelling."] ;;;
       ret {| temperature := None; condition := None |}
     else
       lift (main <- getitem weather_data "main" ;;
             temp <- getitem main "temp" ;;
             w <- getitem weather_data "weather" ;;
             w0 <- getitem_int w 0 ;;
             description <- getitem w0 "description" ;;
             cond <- py_title description ;;
             w' <- getitem weather_data "weather" ;;
             w0' <- getitem_int w' 0 ;;
             main_condition <- getitem w0' "main" ;;
             ret {| temperature := Some temp; condition := Some cond |})) ;;
  cond <- lift (read_var "condition" (condition vars)) ;;
  let emoji := lookup cond weather_emojis "🌍" in
  temp <- lift (read_var "temperature" (temperature vars)) ;;
  print [PStr "Temperature:"; temp; PStr "°C"] ;;;
  print [PStr ("Condition: " ++ cond ++ " " ++ emoji)].

End MorningBrief.

(** *** The weather and news page of the dashboard

    The page holds what the calls of streamlit put on it, in order. *)

Inductive widget : Type :=
| Header (text : string)
| Subheader (text : string)
| Markdown (text : string)
| Metric (label : string) (value : parts)
| Written (text : parts)
| Divider
| Error (text : string).

Definition page : Type := list widget.

Definition st (w : widget) : io page unit :=
  fun p => (Ok tt, p ++ [w]).

(** [WEATHER_API_KEY] and [NEWS_API_KEY] are what [os.getenv] found: a
    text, or [None].  The truth value of a key, and the text an f-string
    puts for it. *)
Definition key_set (key : option string) : bool :=
  match key with
  | Some k => negb (String.eqb k "")
  | None => false
  end.

Definition key_text (key : option string) : string :=
  match key with
  | Some k => k
  | None => "None"
  end.

(** [city] is the text of the input box, and the two booleans say whether
    a button was pressed. *)
Definition show_weather_news `{Requests}
  (WEATHER_API_KEY NEWS_API_KEY : option string)
  (city : string) (get_weather get_news : bool) : io page unit :=
  st (Header "🌤 Weather & 📰 News") ;;;
  st (Subheader "🌤 Live Weather") ;;;
  (if get_weather && key_set WEATHER_API_KEY then
     try_except
       (let url := ("https://api.openweathermap.org/data/2.5/weather?q=" ++
                    city ++ "&appid=" ++ key_text WEATHER_API_KEY ++
                    "&units=metric")%string in
        r <- lift (requests_get url) ;;
        response <- lift (json r) ;;
        cod <- lift (py_get response "cod") ;;
        if eq_int cod 200 then
          main <- lift (getitem response "main") ;;
          temp <- lift (getitem main "temp") ;;
          main' <- lift (getitem response "main") ;;
          humidity <- lift (getitem main' "humidity") ;;
          w <- lift (getitem response "weather") ;;
          w0 <- lift (getitem_int w 0) ;;
          description <- lift (getitem w0 "description") ;;
          condition <- lift (py_title description) ;;
          st (Metric "Temperature" [temp; PStr "°C"]) ;;;
          st (Metric "Humidity" [humidity; PStr "%"]) ;;;
          st (Written [PStr ("**Condition:** " ++ condition)])
        else st (Error "City not found"))
       (fun _ => st (Error "Weather service unavailable"))
   else ret tt) ;;;
  st (Markdown "---") ;;;
  st (Subheader "📰 Latest News") ;;;
  (if get_news && key_set NEWS_API_KEY then
     try_except
       (let url := ("https://newsdata.io/api/1/news?apikey=" ++
                    key_text NEWS_API_KEY ++ "&q=india&language=en")%string in
        r <- lift (requests_get url) ;;
        response <- lift (json r) ;;
        results <- lift (py_get_default response "results" (PList [])) ;;
        articles <- lift (slice_to results 5) ;;
        items <- lift (py_iter articles) ;;
        (fix loop (items : list pyval) : io page unit :=
           match items with
           | [] => ret tt
           | article :: items' =>
               t <- lift (py_get_default article "title" (PStr "No title")) ;;
               st (Written [PStr "**"; t; PStr "**"]) ;;;
               d <- lift (py_get_default article "description" (PStr "")) ;;
               st (Written [PStr "_"; d; PStr "_"]) ;;;
               st Divider ;;;
               loop items'
           end) items)
       (fun _ => st (Error "News service unavailable"))
   else ret tt).

(** ** The vocabulary of the properties *)

(** The store that holds the records [rs], as [save] leaves it. *)
Definition stored (rs : list pyval) : json_file := Some (Encodes (PList rs)).

Definition is_dict (v : pyval) : bool :=
  match v with PDict _ => true | _ => false end.

(** A loaded record has its three fields: two texts and a boolean. *)
Definition populated (r : pyval) : bool :=
  is_text (field "task" r) && is_text (field "time" r) &&
  match field "completed" r with Some (PBool _) => true | _ => false end.

(** The record [add] appends for a call. *)
Definition new_record (call : string * string) : pyval :=
  PDict [("task", PStr (strip (fst call))); ("time", PStr (snd call));
         ("completed", PBool false)].

(** A computation run [n] times in a row, with the results in order. *)
Fixpoint repeatedly {S A : Type} (n : nat) (m : io S A) : io S (list A) :=
  match n with
  | O => ret []
  | S n' => a <- m ;; r <- repeatedly n' m ;; ret (a :: r)
  end.

(** [load] raises on the file. *)
Definition load_raises (fs : json_file) : Prop :=
  exists e, fst (ReminderManager.load fs) = Raise e.

(** Two readings of a file that is valid structured data: its text can be
    decoded; its text is that of an array of objects. *)
Definition decodable (t : json_text) : bool :=
  match t with Encodes _ => true | Undecodable _ => false end.

Definition record_array (t : json_text) : bool :=
  match t with
  | Encodes (PList l) => forallb is_dict l
  | _ => false
  end.

(** The errors of [float(amount)], the invalid amount of the
    specification. *)
Definition invalid_amount (e : exn) : bool :=
  match e with
  | ValueError | TypeError => true
  | _ => false
  end.

Section InsightWords.

Context {F : Type} {lib : FloatLib F}.

(** The amounts are ordered by [<=]: any two compare, one way or the other,
    and the comparison is transitive.  Floats that are numbers are. *)
Definition ordered (xs : list F) : Prop :=
  (forall x y, In x xs -> In y xs ->
     float_le x y = true \/ float_le y x = true) /\
  (forall x y z, In x xs -> In y xs -> In z xs ->
     float_le x y = true -> float_le y z = true -> float_le x z = true).

(** Row [i] is the first of the rows with the greatest amount (the least
    amount). *)
Definition first_greatest (rs : list (Expense F)) (i : nat) (r : Expense F)
  : Prop :=
  nth_error rs i = Some r /\
  (forall r', In r' rs -> float_le (Amount r') (Amount r) = true) /\
  (forall k r', (k < i)%nat -> nth_error rs k = Some r' ->
     float_le (Amount r) (Amount r') = false).

Definition first_least (rs : list (Expense F)) (i : nat) (r : Expense F)
  : Prop :=
  nth_error rs i = Some r /\
  (forall r', In r' rs -> float_le (Amount r) (Amount r') = true) /\
  (forall k r', (k < i)%nat -> nth_error rs k = Some r' ->
     float_le (Amount r') (Amount r) = false).

(** The five lines of the insights, in the words of the specification. *)
Definition insight_lines (rs : list (Expense F)) (most least : Expense F)
  : list string :=
  [("💰 Total spent: ₹" ++ format_2f (series_sum (map Amount rs)))%string;
   ("📊 Average per expense: ₹" ++
    format_2f (series_mean (map Amount rs)))%string;
   ("📝 Total expenses: " ++ str_of_nat (length rs))%string;
   ("🔥 Most expensive: " ++ Item most ++ " - ₹" ++
    format_2f (Amount most))%string;
   ("💸 Cheapest: " ++ Item least ++ " - ₹" ++
    format_2f (Amount least))%string].

End InsightWords.

(** ** Data of the examples *)

Definition reminder (task time : string) (completed : bool) : pyval :=
  PDict [("task", PStr task); ("time", PStr time);
         ("completed", PBool completed)].

(** A record written before the field [completed] existed. *)
Definition old_reminder (task time : string) : pyval :=
  PDict [("task", PStr task); ("time", PStr time)].

Definition example_reminders : list pyval :=
  [reminder "first" "2024-01-01 09:00" false;
   reminder "second" "2099-01-01 09:00" false;
   reminder "third" "2024-01-01" false;
   reminder "fourth" "not-a-date" false].

(** 2024-06-01T00:00:00 *)
Definition example_now : datetime :=
  {| year := 2024; month := 6; day := 1;
     hour := 0; minute := 0; second := 0; microsecond := 0 |}.

Definition example_expenses : list (Expense float) :=
  [{| Item := "Tea"; Amount := 20%float; Date := "2024-01-01" |};
   {| Item := "Lunch"; Amount := 150%float; Date := "2024-01-02" |}].

(** A provider that answers every request with the same body. *)
Definition answers (body : pyval) : Requests :=
  fun _ => Ok {| json := Ok body |}.

(** What the weather provider answers for a city it does not know. *)
Definition city_not_found : pyval :=
  PDict [("cod", PStr "404"); ("message", PStr "city not found")].

(** A list is normal when the loop of [load] leaves it as it is. *)
Definition normal (l : list pyval) : Prop :=
  for_each_update l ReminderManager.default_completed = Ok l.

(** The scan of [argmax_from] and [argmin_from], under any comparison
    [le]: the best so far gives way to a value that is not [le] it. *)
Fixpoint scan {A : Type} (le : A -> A -> bool) (best : A) (best_i i : nat)
  (xs : list A) : nat :=
  match xs with
  | [] => best_i
  | x :: xs' =>
      if negb (le x best) then scan le x i (S i) xs'
      else scan le best best_i (S i) xs'
  end.

Definition ordered_by {A : Type} (le : A -> A -> bool) (xs : list A) : Prop :=
  (forall x y, In x xs -> In y xs -> le x y = true \/ le y x = true) /\
  (forall x y z, In x xs -> In y xs -> In z xs ->
     le x y = true -> le y z = true -> le x z = true).

(** [x] at position [i] is the first of the values that every value is
    [le]. *)
Definition first_best {A : Type} (le : A -> A -> bool) (xs : list A)
  (i : nat) (x : A) : Prop :=
  nth_error xs i = Some x /\
  (forall y, In y xs -> le y x = true) /\
  (forall k y, (k < i)%nat -> nth_error xs k = Some y -> le x y = false).

(** A step of a page that ends without an exception, whatever the page. *)
Definition succeeds (m : io page unit) : Prop :=
  forall p, exists p', m p = (Ok tt, p').

(** What the script has printed when it comes to the answer. *)
Definition banner : MorningBrief.console :=
  [[]; [PStr "⛅Weather"]; [PStr "Enter the city: "]].

(** ** The home page

    The two metrics of [show_home] that read the stores. *)

Module Home.

(** [sum(1 for t in rm.load() if not t["completed"])] *)
Definition pending : io json_file nat :=
  tasks <- ReminderManager.load ;;
  items <- lift (py_iter tasks) ;;
  lift (for_each items 0%nat
          (fun n t =>
             completed <- getitem t "completed" ;;
             ret (if negb (truthy completed) then S n else n))).

(** The text of the metric [Total Expenses]: the sum of the amounts, or the
    integer 0 for an empty table, with two decimals. *)
Definition total_expenses {F : Type} {lib : FloatLib F}
  : io (csv_file F) string :=
  df <- ExpenseManager.load ;;
  let total :=
    if negb (ExpenseManager.empty df) &&
       existsb (String.eqb "Amount") (columns df)
    then format_2f (series_sum (map Amount (rows df)))
    else "0.00" in
  ret ("₹" ++ total)%string.

End Home.

(** A record counts as pending when its [completed] is absent or false in
    the sense of [not]. *)
Definition not_done (r : pyval) : bool :=
  match field "completed" r with
  | Some c => negb (truthy c)
  | None => true
  end.

(** A record [check_reminders] cannot notify: it has no [task], or its
    [time] is no text. *)
Definition unnotifiable (r : pyval) : bool :=
  match field "task" r with
  | None => true
  | Some _ => negb (is_text (field "time" r))
  end.

(** Records of odd shapes: one that is due and has no task, one whose time
    is a number, and an empty one. *)
Definition odd_reminders : list pyval :=
  [PDict [("time", PStr "2024-01-01 09:00")];
   reminder "first" "2024-01-01 09:00" false;
   PDict [("task", PStr "third"); ("time", PNum 20240101)];
   PDict []].

(** ** The news section of the morning brief

    Every [print] here has one argument at most; a line of the console is
    that argument, an f-string held as its parts. *)

Module MorningNews.

Definition say (text : parts) : io MorningBrief.console unit :=
  fun out => (Ok tt, out ++ [text]).

(** [for i, article in enumerate(articles, i): print(f"{i}. {article['title']}")] *)
Fixpoint headlines (articles : list pyval) (i : Z)
  : io MorningBrief.console unit :=
  match articles with
  | [] => ret tt
  | article :: articles' =>
      title <- lift (getitem article "title") ;;
      say [PNum i; PStr ". "; title] ;;;
      headlines articles' (i + 1)%Z
  end.

(** Lines 55 to 69 of the script.  [news_API_Key] is the key the script
    holds and writes into the address. *)
Definition news `{Requests} (news_API_Key : string)
  : io MorningBrief.console unit :=
  say [] ;;;
  say [PStr "📰Live News"] ;;;
  let url := ("https://newsdata.io/api/1/news?apikey=" ++ news_API_Key ++
              "&q=india%20AND%20(politics%20OR%20technology%20OR%20sports" ++
              "%20OR%20cricket)&language=en&country=in")%string in
  response <- lift (requests_get url) ;;
  news_data <- lift (json response) ;;
  results <- lift (getitem news_data "results") ;;
  articles <- lift (slice_to results 5) ;;
  say [] ;;;
  say [PStr "🗞️ Top News Headlines:"] ;;;
  items <- lift (py_iter articles) ;;
  headlines items 1.

End MorningNews.

(** The loop over the articles on the page of the dashboard, by name. *)
Fixpoint news_loop (items : list pyval) : io page unit :=
  match items with
  | [] => ret tt
  | article :: items' =>
      t <- lift (py_get_default article "title" (PStr "No title")) ;;
      st (Written [PStr "**"; t; PStr "**"]) ;;;
      d <- lift (py_get_default article "description" (PStr "")) ;;
      st (Written [PStr "_"; d; PStr "_"]) ;;;
      st Divider ;;;
      news_loop items'
  end.

(** What the page shows for an article. *)
Definition article_widgets (article : pyval) : list widget :=
  [Written [PStr "**";
            match field "title" article with
            | Some t => t
            | None => PStr "No title"
            end; PStr "**"];
   Written [PStr "_";
            match field "description" article with
            | Some d => d
            | None => PStr ""
            end; PStr "_"];
   Divider].

(** The lines of the morning brief for the titles, numbered from [i]. *)
Fixpoint numbered (titles : list pyval) (i : Z) : list parts :=
  match titles with
  | [] => []
  | t :: titles' => [PNum i; PStr ". "; t] :: numbered titles' (i + 1)%Z
  end.

Definition has_title (article : pyval) : bool :=
  match field "title" article with Some _ => true | None => false end.

Definition title_of (article : pyval) : pyval :=
  match field "title" article with Some t => t | None => PNone end.

(** ** RestaurantManager *)

Module RestaurantManager.

Definition suggestions : list (string * list string) :=
  [("Romantic Dinner", ["Fine Dining"; "Italian"; "French"; "Candle Light"]);
   ("Family Dinner",
    ["North Indian"; "Chinese"; "Multi-cuisine"; "Vegetarian"]);
   ("Business Lunch", ["Quick Bites"; "Cafe"; "Sandwiches"; "Salads"]);
   ("Birthday Party", ["Pub"; "Barbeque"; "Multi-cuisine"; "Desserts"]);
   ("Quick Lunch", ["Fast Food"; "South Indian"; "Street Food"; "Snacks"]);
   ("Date Night", ["Italian"; "Chinese"; "Continental"; "Wine Bar"])].

(** [d.get(k, default)] on a table of lists *)
Fixpoint get (k : string) (d : list (string * list string))
  (default : list string) : list string :=
  match d with
  | [] => default
  | (k', v) :: d' => if String.eqb k k' then v else get k d' default
  end.

Definition get_occasion_suggestions (occasion : string) : list string :=
  get occasion suggestions ["Indian"; "Chinese"; "Italian"].

End RestaurantManager.

(** The occasions the select box of [show_restaurants] offers. *)
Definition occasions : list string :=
  ["Romantic Dinner"; "Family Dinner"; "Business Lunch";
   "Birthday Party"; "Quick Lunch"; "Date Night"].

(** [suggestions[0]], as [Find for Occasion] reads it *)
Definition first_suggestion (suggestions : list string) : result string :=
  match suggestions with
  | s :: _ => Ok s
  | [] => Raise IndexError
  end.

(** Two articles, and the answer of the news provider that holds them. *)
Definition two_articles : list pyval :=
  [PDict [("title", PStr "Rain")]; PDict [("description", PStr "wet")]].

Definition two_results : dict := [("results", PList two_articles)].

(** ** Formatting dates and times

    [t.strftime(format)] for the directives the dashboard uses,
    [%Y %m %d %H %M %S %I %p %b] and [%%], as the C library of Linux
    formats them: the year as a number, the other numbers on two digits,
    the month and the half of the day in English.  Any other directive is
    outside the model and is left as it stands. *)

Definition digit_char (d : Z) : ascii := ascii_of_nat (48 + Z.to_nat d).

Definition pad2 (n : Z) : string :=
  String (digit_char (n / 10)) (String (digit_char (n mod 10)) EmptyString).

Definition pad4 (n : Z) : string :=
  String (digit_char (n / 1000))
    (String (digit_char (n / 100 mod 10)) (pad2 (n mod 100))).

Definition month_abbr (m : Z) : string :=
  nth (Z.to_nat (m - 1))
      ["Jan"; "Feb"; "Mar"; "Apr"; "May"; "Jun";
       "Jul"; "Aug"; "Sep"; "Oct"; "Nov"; "Dec"] "".

Definition format_directive (c : ascii) (t : datetime) : string :=
  match c with
  | "Y"%char => Float64.str_of_Z (year t)
  | "m"%char => pad2 (month t)
  | "d"%char => pad2 (day t)
  | "H"%char => pad2 (hour t)
  | "M"%char => pad2 (minute t)
  | "S"%char => pad2 (second t)
  | "I"%char => pad2 (if (hour t mod 12 =? 0)%Z then 12 else hour t mod 12)
  | "p"%char => if (hour t <? 12)%Z then "AM" else "PM"
  | "b"%char => month_abbr (month t)
  | "%"%char => "%"
  | _ => String "%" (String c EmptyString)
  end.

Fixpoint strftime_list (t : datetime) (fmt : list ascii) : string :=
  match fmt with
  | "%"%char :: c :: fmt' =>
      (format_directive c t ++ strftime_list t fmt')%string
  | c :: fmt' => String c (strftime_list t fmt')
  | [] => EmptyString
  end.

Definition strftime (t : datetime) (format : string) : string :=
  strftime_list t (list_ascii_of_string format).

(** [d.isoformat()] of a date: four, two and two digits. *)
Definition isoformat (y m d : Z) : string :=
  (pad4 y ++ "-" ++ pad2 m ++ "-" ++ pad2 d)%string.

(** A datetime of the calendar, and one of a year of four digits. *)
Definition valid_datetime (t : datetime) : bool :=
  ((1 <=? year t) && (year t <=? 9999) &&
   (1 <=? month t) && (month t <=? 12) &&
   (1 <=? day t) && (day t <=? days_in_month (year t) (month t)) &&
   (0 <=? hour t) && (hour t <=? 23) &&
   (0 <=? minute t) && (minute t <=? 59) &&
   (0 <=? second t) && (second t <=? 59) &&
   (0 <=? microsecond t) && (microsecond t <=? 999999))%Z.

(** The datetime cut to its minute. *)
Definition to_the_minute (t : datetime) : datetime :=
  {| year := year t; month := month t; day := day t;
     hour := hour t; minute := minute t; second := 0; microsecond := 0 |}.

(** ** The pages that write to the stores

    What such a page shows, in order.  A failure shows its text followed
    by the message of the exception it reports, when it reports one. *)

Inductive element : Type :=
| Subhead (text : string)
| Info (text : string)
| Success (text : string)
| Failure (text : string) (cause : option exn)
| Line (text : parts).

(** A page and the file of its store. *)
Definition screen (T : Type) : Type := (list element * option T)%type.

Definition show {T : Type} (e : element) : io (screen T) unit :=
  fun s => (Ok tt, (fst s ++ [e], snd s)).

(** A call of a manager from a page. *)
Definition on_file {T A : Type} (m : io (option T) A) : io (screen T) A :=
  fun s => let (r, f) := m (snd s) in (r, (fst s, f)).

(** [len(s)] and [s[i] == c] for a text [s] *)
Definition py_len (s : string) : nat :=
  length (characters (list_ascii_of_string s)).

Definition char_is (s : string) (i : nat) (c : ascii) : bool :=
  match nth_error (characters (list_ascii_of_string s)) i with
  | Some [c'] => Ascii.eqb c' c
  | _ => false
  end.

Definition nonempty (s : string) : bool := negb (String.eqb s "").



(** The check of [show_expenses] on the text of a date. *)
Definition date_shape (date_input : string) : bool :=
  (py_len date_input =? 10)%nat && char_is date_input 4 "-" &&
  char_is date_input 7 "-".


(** The button [Add Reminder] of [show_reminders] (lines 272 to 276):
    [when] is the date and the time of the two pickers, combined. *)
Definition add_reminder_pressed (pressed : bool) (task_text : string)
  (when : datetime) : io (screen json_text) bool :=
  if pressed && nonempty task_text then
    let date_str := strftime when "%Y-%m-%d %H:%M" in
    on_file (ReminderManager.add task_text date_str) ;;;
    show (Success "✅ Reminder added!") ;;;
    ret true
  else ret false.

(** The list of [show_reminders] (lines 318 to 352), from the tasks the
    page has loaded, the view of the radio buttons, and the toggle that
    was pressed, if one was. *)

Inductive view : Type := All | Pending | Completed.

(** The positions in [tasks] of the records of a view, in order: the
    filtered list holds the records themselves, not copies. *)
Fixpoint view_positions (v : view) (items : list pyval) (p : nat)
  : result (list nat) :=
  match items with
  | [] => Ok []
  | t :: items' =>
      keep <- match v with
              | All => Ok true
              | Pending =>
                  completed <- getitem t "completed" ;;
                  ret (negb (truthy completed))
              | Completed =>
                  completed <- getitem t "completed" ;;
                  ret (truthy completed)
              end ;;
      rest <- view_positions v items' (S p) ;;
      ret (if keep then p :: rest else rest)
  end.

Fixpoint replace {A : Type} (p : nat) (x : A) (l : list A) : list A :=
  match l, p with
  | [], _ => []
  | _ :: l', O => x :: l'
  | y :: l', S p' => y :: replace p' x l'
  end.

Section ReminderList.

Context {lib : Strptime}.

(** The text of the time of a row: formatted when it parses as a date and
    time, as it is stored otherwise. *)
Definition time_str (task : pyval) : result pyval :=
  try_except
    (time <- getitem task "time" ;;
     dt <- datetime_strptime time "%Y-%m-%d %H:%M" ;;
     ret (PStr (strftime dt "%b %d, %I:%M %p")))
    (fun _ => getitem task "time").

(** The rows from row [i] on; [filtered] holds the positions left. *)
Fixpoint show_rows (tasks : pyval) (items : list pyval) (filtered : list nat)
  (i : nat) (pressed : option nat) : io (screen json_text) bool :=
  match filtered with
  | [] => ret false
  | p :: filtered' =>
      task <- lift (match nth_error items p with
                    | Some t => Ok t
                    | None => Raise IndexError
                    end) ;;
      completed <- lift (getitem task "completed") ;;
      let status := if truthy completed then "✅" else "⏰" in
      text <- lift (getitem task "task") ;;
      show (Line [PStr status; PStr " "; text]) ;;;
      time <- lift (time_str task) ;;
      show (Line [PStr "📅 "; time]) ;;;
      if match pressed with Some j => (j =? i)%nat | None => false end then
        completed <- lift (getitem task "completed") ;;
        task' <- lift (setitem task "completed"
                         (PBool (negb (truthy completed)))) ;;
        on_file (ReminderManager.save
                   (ReminderManager.updated tasks (replace p task' items))) ;;;
        ret true
      else show_rows tasks items filtered' (S i) pressed
  end.

Definition reminder_list (tasks : pyval) (v : view) (pressed : option nat)
  : io (screen json_text) bool :=
  show (Subhead "📋 Your Reminders") ;;;
  if negb (truthy tasks) then
    show (Info "No reminders yet. Add one above!") ;;;
    ret false
  else
    items <- lift (py_iter tasks) ;;
    filtered <- lift (view_positions v items 0) ;;
    show_rows tasks items filtered 0 pressed.

End ReminderList.

(** The record with its [completed] turned over. *)
Definition flipped (r : pyval) : pyval :=
  match r with
  | PDict d => PDict (dict_set "completed" (PBool (negb (is_completed r))) d)
  | _ => r
  end.

(** The year, written as a number, is four digits that read as the year. *)
Definition year_ok (y : Z) : bool :=
  match list_ascii_of_string (Float64.str_of_Z y) with
  | [c1; c2; c3; c4] =>
      is_digit c1 && is_digit c2 && is_digit c3 && is_digit c4 &&
      (1000 * digit c1 + 100 * digit c2 + 10 * digit c3 + digit c4 =? y)%Z
  | _ => false
  end.

(** The two digits of [v], before any text, are read by the directive [c]
    as [v], and are no white space. *)
Definition reads (c : ascii) (v : Z) : Prop :=
  forall rest,
    space_len (list_ascii_of_string (pad2 v) ++ rest) = 0%nat /\
    exists more,
      directive c (list_ascii_of_string (pad2 v) ++ rest) = (v, rest) :: more.

(** A loaded record is shown in a view. *)
Definition shown (v : view) (r : pyval) : bool :=
  match v with
  | All => true
  | Pending => negb (is_completed r)
  | Completed => is_completed r
  end.

(** The positions, counted from [p], of the records shown in a view. *)
Fixpoint positions_of (v : view) (items : list pyval) (p : nat) : list nat :=
  match items with
  | [] => []
  | r :: items' =>
      if shown v r then p :: positions_of v items' (S p)
      else positions_of v items' (S p)
  end.

(** A text of [n] blanks. *)
Fixpoint blanks (n : nat) : string :=
  match n with
  | O => EmptyString
  | S n' => String " " (blanks n')
  end.


(** * Properties *)

(** ** The models of the libraries at work *)

Example strptime_date_time :
  py_strptime "2024-01-01 09:00" "%Y-%m-%d %H:%M"
  = Ok {| year := 2024; month := 1; day := 1; hour := 9; minute := 0;
          second := 0; microsecond := 0 |}.
Proof. reflexivity. Qed.

Example strptime_short_fields :
  py_strptime "2024-1-5   7:05" "%Y-%m-%d %H:%M"
  = Ok {| year := 2024; month := 1; day := 5; hour := 7; minute := 5;
          second := 0; microsecond := 0 |}.
Proof. reflexivity. Qed.

Example strptime_date_only :
  py_strptime "2024-01-01" "%Y-%m-%d %H:%M" = Raise ValueError /\
  py_strptime "2024-01-01" "%Y-%m-%d"
  = Ok {| year := 2024; month := 1; day := 1; hour := 0; minute := 0;
          second := 0; microsecond := 0 |}.
Proof. split; reflexivity. Qed.

Example strptime_refuses :
  py_strptime "not-a-date" "%Y-%m-%d" = Raise ValueError /\
  py_strptime "2024-02-30" "%Y-%m-%d" = Raise ValueError /\
  py_strptime "2024-01-011" "%Y-%m-%d" = Raise ValueError /\
  py_strptime "2024-01-01 24:00" "%Y-%m-%d %H:%M" = Raise ValueError.
Proof. repeat split; reflexivity. Qed.

Example strip_both_ends : strip "  call Mom  " = "call Mom".
Proof. reflexivity. Qed.

Example float_of_text_accepts :
  Float64.float_of_text " 12.5 " = Some 12.5%float /\
  Float64.float_of_text "1_000" = Some 1000%float /\
  Float64.float_of_text "15e1" = Some 150%float /\
  Float64.float_of_text "-inf" = Some neg_infinity.
Proof. repeat split; vm_compute; reflexivity. Qed.

Example float_of_text_refuses :
  Float64.float_of_text "abc" = None /\
  Float64.float_of_text "12,5" = None /\
  Float64.float_of_text "1__0" = None /\
  Float64.float_of_text "." = None.
Proof. repeat split; vm_compute; reflexivity. Qed.

(** Ties go to the even digit, on the binary value. *)
Example format_2f_rounds :
  Float64.format_2f 0.125 = "0.12" /\
  Float64.format_2f 0.375 = "0.38" /\
  Float64.format_2f 85 = "85.00" /\
  Float64.format_2f (-2.5) = "-2.50".
Proof. repeat split; vm_compute; reflexivity. Qed.

(** ** Dictionaries *)

Lemma dict_get_app (k : string) (d d' : dict) :
  dict_get k (d ++ d') =
  match dict_get k d with Some v => Some v | None => dict_get k d' end.
Proof.
  induction d as [|[k' v'] d IH]; simpl; [reflexivity|].
  destruct (String.eqb k k'); [reflexivity | exact IH].
Qed.

Lemma dict_set_absent (k : string) (v : pyval) (d : dict) :
  dict_get k d = None -> dict_set k v d = d ++ [(k, v)].
Proof.
  induction d as [|[k' v'] d IH]; simpl; [reflexivity|].
  destruct (String.eqb k k'); [discriminate|].
  intros H. now rewrite IH.
Qed.

(** ** Loading *)

Lemma default_completed_dict (d : dict) :
  ReminderManager.default_completed (PDict d) = Ok (with_completed (PDict d)).
Proof.
  unfold ReminderManager.default_completed, with_completed. cbn.
  unfold dict_mem.
  destruct (dict_get "completed" d) eqn:E; cbn; [reflexivity|].
  now rewrite dict_set_absent.
Qed.

Lemma load_loop (rs : list pyval) :
  forallb is_dict rs = true ->
  for_each_update rs ReminderManager.default_completed
  = Ok (map with_completed rs).
Proof.
  induction rs as [|r rs IH]; simpl; [reflexivity|].
  intros H. apply andb_prop in H as [Hr Hrs].
  destruct r; try discriminate.
  rewrite default_completed_dict, (IH Hrs). reflexivity.
Qed.

Lemma load_stored (rs : list pyval) :
  forallb is_dict rs = true ->
  ReminderManager.load (stored rs)
  = (Ok (PList (map with_completed rs)), stored rs).
Proof.
  intros H. unfold ReminderManager.load, stored. cbn.
  unfold lift. rewrite (load_loop rs H). reflexivity.
Qed.

Lemma load_keeps_file (fs : json_file) : snd (ReminderManager.load fs) = fs.
Proof.
  unfold ReminderManager.load. cbn. unfold lift.
  destruct fs as [[raw|v]|]; cbn; try reflexivity.
  destruct (py_iter v) as [items|e]; cbn; [|destruct e; reflexivity].
  destruct (for_each_update items ReminderManager.default_completed)
    as [items'|e]; cbn; [reflexivity | destruct e; reflexivity].
Qed.

Lemma load_absent : ReminderManager.load None = (Ok (PList []), None).
Proof. reflexivity. Qed.

Lemma load_undecodable (raw : string) :
  ReminderManager.load (Some (Undecodable raw))
  = (Raise JSONDecodeError, Some (Undecodable raw)).
Proof. reflexivity. Qed.

Lemma valid_is_dict (rs : list pyval) :
  forallb valid_reminder rs = true -> forallb is_dict rs = true.
Proof.
  induction rs as [|r rs IH]; simpl; [reflexivity|].
  intros H. apply andb_prop in H as [Hr Hrs].
  rewrite (IH Hrs). destruct r; try discriminate. reflexivity.
Qed.

(** The fields of a valid record, and of the record [load] makes of it. *)
Lemma valid_fields (r : pyval) :
  valid_reminder r = true ->
  exists d t s,
    r = PDict d /\ dict_get "task" d = Some (PStr t) /\
    dict_get "time" d = Some (PStr s) /\
    (dict_get "completed" d = None \/
     exists b, dict_get "completed" d = Some (PBool b)).
Proof.
  destruct r as [| | | |l|d]; try discriminate. simpl.
  intros H. apply andb_prop in H as [H Hc]. apply andb_prop in H as [Ht Hs].
  destruct (dict_get "task" d) as [[]|] eqn:Et; try discriminate.
  destruct (dict_get "time" d) as [[]|] eqn:Es; try discriminate.
  exists d, s, s0. split; [reflexivity|]. split; [exact Et|].
  split; [exact Es|].
  destruct (dict_get "completed" d) as [[]|]; try discriminate;
    [right; eexists; reflexivity | left; reflexivity].
Qed.

Lemma with_completed_fields (d : dict) :
  exists d',
    with_completed (PDict d) = PDict d' /\
    dict_get "task" d' = dict_get "task" d /\
    dict_get "time" d' = dict_get "time" d /\
    dict_get "completed" d' =
      match dict_get "completed" d with
      | Some v => Some v
      | None => Some (PBool false)
      end.
Proof.
  unfold with_completed, dict_mem.
  destruct (dict_get "completed" d) eqn:E.
  - exists d. rewrite E. repeat split.
  - exists (d ++ [("completed", PBool false)]).
    rewrite !dict_get_app, E. repeat split.
    + destruct (dict_get "task" d); reflexivity.
    + destruct (dict_get "time" d); reflexivity.
Qed.

Lemma with_completed_present (r : pyval) :
  field "completed" r <> None -> with_completed r = r.
Proof.
  destruct r; try reflexivity. simpl. unfold dict_mem.
  destruct (dict_get "completed" d); [reflexivity | congruence].
Qed.

Lemma with_completed_populated (r : pyval) :
  valid_reminder r = true ->
  populated (with_completed r) = true /\
  field "task" (with_completed r) = field "task" r /\
  field "time" (with_completed r) = field "time" r /\
  field "completed" (with_completed r) = Some (PBool (is_completed r)).
Proof.
  intros H. destruct (valid_fields r H) as (d & t & s & -> & Ht & Hs & Hc).
  destruct (with_completed_fields d) as (d' & -> & Ht' & Hs' & Hc').
  unfold populated, is_completed, field.
  rewrite Ht', Hs', Hc', Ht, Hs.
  destruct Hc as [Hc | [b Hc]]; rewrite Hc; repeat split.
Qed.

(** ** The due reminders *)

Section Due.

Context {lib : Strptime}.

Lemma check_one_valid (now : datetime) (acc : list pyval) (r : pyval) :
  valid_reminder r = true ->
  ReminderManager.check_one now acc (with_completed r)
  = Ok (if due now r then acc ++ [task_text r] else acc).
Proof.
  intros H. destruct (valid_fields r H) as (d & t & s & -> & Ht & Hs & Hc).
  destruct (with_completed_fields d) as (d' & -> & Ht' & Hs' & Hc').
  unfold ReminderManager.check_one, due, is_completed, time_text, task_text,
    field.
  cbn -[datetime_le date_le date_of]. rewrite Hc', Ht', Hs', Ht, Hs.
  assert (E : exists b, match dict_get "completed" d with
                        | Some v => Some v
                        | None => Some (PBool false)
                        end = Some (PBool b) /\
                        match dict_get "completed" d with
                        | Some (PBool b') => b'
                        | _ => false
                        end = b).
  { destruct Hc as [Hc | [b Hc]]; rewrite Hc; eexists; split; reflexivity. }
  destruct E as (b & -> & ->). cbn -[datetime_le date_le date_of].
  destruct b; cbn -[datetime_le date_le date_of]; [reflexivity|].
  destruct (strptime s "%Y-%m-%d %H:%M") as [t1|e1];
    cbn -[datetime_le date_le date_of].
  - destruct (datetime_le t1 now); reflexivity.
  - destruct (strptime s "%Y-%m-%d") as [t2|e2];
      cbn -[datetime_le date_le date_of]; [|reflexivity].
    destruct (date_le (date_of t2) (date_of now)); reflexivity.
Qed.

Lemma check_loop (now : datetime) (rs acc : list pyval) :
  forallb valid_reminder rs = true ->
  for_each (map with_completed rs) acc (ReminderManager.check_one now)
  = Ok (acc ++ map task_text (filter (due now) rs)).
Proof.
  revert acc. induction rs as [|r rs IH]; intros acc; simpl.
  - now rewrite app_nil_r.
  - intros H. apply andb_prop in H as [Hr Hrs].
    rewrite (check_one_valid now acc r Hr).
    destruct (due now r); rewrite (IH _ Hrs); simpl; [|reflexivity].
    now rewrite <- app_assoc.
Qed.

Lemma check_reminders_stored (now : datetime) (rs : list pyval) :
  forallb valid_reminder rs = true ->
  ReminderManager.check_reminders now (stored rs)
  = (Ok (map task_text (filter (due now) rs)), stored rs).
Proof.
  intros H. unfold ReminderManager.check_reminders.
  cbn -[ReminderManager.load].
  rewrite (load_stored rs (valid_is_dict rs H)). cbn. unfold lift.
  now rewrite (check_loop now rs [] H).
Qed.

End Due.

(** ** Appending *)

Lemma dict_get_other (k k' : string) (v : pyval) (d : dict) :
  k <> k' -> dict_get k (d ++ [(k', v)]) = dict_get k d.
Proof.
  intros Hk. rewrite dict_get_app. simpl.
  destruct (String.eqb_spec k k'); [contradiction|].
  destruct (dict_get k d); reflexivity.
Qed.

Lemma with_completed_other (k : string) (r : pyval) :
  k <> "completed" -> field k (with_completed r) = field k r.
Proof.
  intros Hk. destruct r; try reflexivity. simpl.
  destruct (dict_mem "completed" d); [reflexivity|].
  simpl. now apply dict_get_other.
Qed.

Lemma default_completed_idem (x x' : pyval) :
  ReminderManager.default_completed x = Ok x' ->
  ReminderManager.default_completed x' = Ok x'.
Proof.
  unfold ReminderManager.default_completed.
  destruct x; cbn; try discriminate.
  - destruct (str_contains "completed" s) eqn:E; cbn; [|discriminate].
    intros [= <-]. cbn. now rewrite E.
  - destruct (existsb (is_str "completed") l) eqn:E; cbn; [|discriminate].
    intros [= <-]. cbn. now rewrite E.
  - unfold dict_mem.
    destruct (dict_get "completed" d) eqn:E; cbn; intros [= <-]; cbn;
      unfold dict_mem.
    + now rewrite E.
    + rewrite (dict_set_absent _ _ _ E), dict_get_app, E. reflexivity.
Qed.

Lemma loop_normal (l l' : list pyval) :
  for_each_update l ReminderManager.default_completed = Ok l' -> normal l'.
Proof.
  unfold normal. revert l'. induction l as [|x l IH]; simpl; intros l'.
  - intros [= <-]. reflexivity.
  - destruct (ReminderManager.default_completed x) as [x'|] eqn:Ex;
      [|discriminate].
    destruct (for_each_update l ReminderManager.default_completed)
      as [r|] eqn:El; [|discriminate].
    intros [= <-]. simpl.
    now rewrite (default_completed_idem x x' Ex), (IH r eq_refl).
Qed.

Lemma normal_app (l : list pyval) (x : pyval) :
  normal l -> ReminderManager.default_completed x = Ok x ->
  normal (l ++ [x]).
Proof.
  unfold normal. intros Hl Hx. induction l as [|y l IH] in Hl |- *; simpl.
  - now rewrite Hx.
  - simpl in Hl.
    destruct (ReminderManager.default_completed y) as [y'|]; [|discriminate].
    destruct (for_each_update l ReminderManager.default_completed)
      as [r|] eqn:El; [|discriminate].
    injection Hl as -> ->. now rewrite (IH eq_refl).
Qed.

Lemma load_normal (l : list pyval) :
  normal l -> ReminderManager.load (stored l) = (Ok (PList l), stored l).
Proof.
  unfold normal. intros H. unfold ReminderManager.load, stored. cbn.
  unfold lift. now rewrite H.
Qed.

(** The loop of [load] raises nothing but a [TypeError]. *)
Lemma default_completed_raises (x : pyval) (e : exn) :
  ReminderManager.default_completed x = Raise e -> e = TypeError.
Proof.
  unfold ReminderManager.default_completed.
  destruct x; cbn; try congruence.
  - destruct (str_contains "completed" s); cbn; congruence.
  - destruct (existsb (is_str "completed") l); cbn; congruence.
  - destruct (dict_mem "completed" d); cbn; congruence.
Qed.

Lemma loop_raises (l : list pyval) (e : exn) :
  for_each_update l ReminderManager.default_completed = Raise e ->
  e = TypeError.
Proof.
  induction l as [|x l IH]; simpl; [discriminate|].
  destruct (ReminderManager.default_completed x) eqn:Ex.
  - destruct (for_each_update l ReminderManager.default_completed);
      [discriminate|].
    intros [= <-]. now apply IH.
  - intros [= <-]. exact (default_completed_raises x e0 Ex).
Qed.

(** What a successful [load] says of the file. *)
Lemma load_list_inv (fs : json_file) (prior : list pyval) :
  fst (ReminderManager.load fs) = Ok (PList prior) ->
  (fs = None /\ prior = []) \/
  (exists l, fs = stored l /\
     for_each_update l ReminderManager.default_completed = Ok prior).
Proof.
  destruct fs as [[raw|v]|]; cbn.
  - discriminate.
  - unfold lift. destruct v; cbn; try discriminate.
    + destruct (for_each_update _ _) as [r|e] eqn:E; cbn; [discriminate|].
      rewrite (loop_raises _ e E). discriminate.
    + destruct (for_each_update l ReminderManager.default_completed)
        as [r|e] eqn:E; cbn.
      * intros [= <-]. right. exists l. split; [reflexivity | exact E].
      * rewrite (loop_raises _ e E). discriminate.
    + destruct (for_each_update _ _) as [r|e] eqn:E; cbn; [discriminate|].
      rewrite (loop_raises _ e E). discriminate.
  - intros [= <-]. left. split; reflexivity.
Qed.

Lemma add_to_loaded (fs : json_file) (prior : list pyval) (call : string * string) :
  fst (ReminderManager.load fs) = Ok (PList prior) ->
  ReminderManager.add (fst call) (snd call) fs
  = (Ok tt, stored (prior ++ [new_record call])) /\
  normal (prior ++ [new_record call]).
Proof.
  intros H. assert (Hn : normal prior).
  { destruct (load_list_inv fs prior H) as [[_ ->] | (l & _ & E)];
      [reflexivity | exact (loop_normal l prior E)]. }
  split; [|apply normal_app; [exact Hn | reflexivity]].
  unfold ReminderManager.add. cbn -[ReminderManager.load].
  pose proof (load_keeps_file fs) as Hs.
  destruct (ReminderManager.load fs) as [out fs']. simpl in H, Hs.
  subst out fs'. reflexivity.
Qed.

Lemma add_all_to_loaded (calls : list (string * string)) :
  forall (fs : json_file) (prior : list pyval),
  fst (ReminderManager.load fs) = Ok (PList prior) ->
  fst (bind (ReminderManager.add_all calls) (fun _ => ReminderManager.load) fs)
  = Ok (PList (prior ++ map new_record calls)).
Proof.
  induction calls as [|call calls IH]; intros fs prior H.
  - cbn -[ReminderManager.load]. now rewrite app_nil_r.
  - destruct (add_to_loaded fs prior call H) as [Ha Hn].
    destruct call as [t d]. simpl in Ha.
    specialize (IH (stored (prior ++ [new_record (t, d)]))
                   (prior ++ [new_record (t, d)])).
    rewrite (load_normal _ Hn) in IH. specialize (IH eq_refl).
    cbn -[ReminderManager.load ReminderManager.add ReminderManager.add_all]
      in IH |- *.
    simpl ReminderManager.add_all.
    cbn -[ReminderManager.load ReminderManager.add ReminderManager.add_all].
    rewrite Ha.
    rewrite <- app_assoc in IH. exact IH.
Qed.

(** Where [load] raises, [add] raises the same and writes nothing. *)
Lemma add_fails_where_load_fails (fs : json_file) (e : exn)
  (task_text date_time : string) :
  fst (ReminderManager.load fs) = Raise e ->
  ReminderManager.add task_text date_time fs = (Raise e, fs).
Proof.
  intros H. unfold ReminderManager.add. cbn -[ReminderManager.load].
  pose proof (load_keeps_file fs) as Hs.
  destruct (ReminderManager.load fs) as [out fs']. simpl in H, Hs.
  now subst out fs'.
Qed.

(** ** The claims on the reminder store *)

(** C1: for every stored list of valid reminders and every instant [now],
    [check_reminders] returns exactly the task texts, in stored order, of
    the reminders that are due: incomplete, and with a time that parses as
    a date and time not after [now], or that fails that parse, parses as a
    date, and is not after the date of [now].  The file is left as it was,
    and a completed reminder is never due, whatever its time. *)
Theorem due_now_returns_due_tasks (lib : Strptime) (now : datetime)
  (rs : list pyval) :
  forallb valid_reminder rs = true ->
  ReminderManager.check_reminders now (stored rs)
  = (Ok (map task_text (filter (due now) rs)), stored rs) /\
  (forall r, is_completed r = true -> due now r = false).
Proof.
  intros H. split.
  - exact (check_reminders_stored now rs H).
  - intros r Hr. unfold due. now rewrite Hr.
Qed.

(** The example of the specification: of the four reminders, the first and
    the third are due on 2024-06-01 at midnight. *)
Lemma due_now_example :
  forallb valid_reminder example_reminders = true /\
  fst (ReminderManager.check_reminders example_now (stored example_reminders))
  = Ok [PStr "first"; PStr "third"].
Proof.
  split; [reflexivity|].
  rewrite (proj1 (due_now_returns_due_tasks py_strptime example_now
                    example_reminders eq_refl)).
  reflexivity.
Defined.

(** C7: a stored reminder whose time matches neither format does not make
    [check_reminders] raise; the result is that of the store without the
    record. *)
Theorem unparseable_time_is_skipped (lib : Strptime) (now : datetime)
  (before after : list pyval) (r : pyval) :
  forallb valid_reminder (before ++ r :: after) = true ->
  unparseable r = true ->
  fst (ReminderManager.check_reminders now (stored (before ++ r :: after)))
  = Ok (map task_text (filter (due now) (before ++ after))) /\
  fst (ReminderManager.check_reminders now (stored (before ++ r :: after)))
  = fst (ReminderManager.check_reminders now (stored (before ++ after))).
Proof.
  intros H Hr.
  assert (H' : forallb valid_reminder (before ++ after) = true).
  { rewrite forallb_app in H |- *. simpl in H.
    apply andb_prop in H as [Hb Ha]. apply andb_prop in Ha as [_ Ha].
    now rewrite Hb, Ha. }
  assert (Hd : due now r = false).
  { unfold due. unfold unparseable in Hr.
    destruct (strptime (time_text r) "%Y-%m-%d %H:%M"); [discriminate|].
    destruct (strptime (time_text r) "%Y-%m-%d"); [discriminate|].
    apply andb_false_r. }
  rewrite (check_reminders_stored now _ H), (check_reminders_stored now _ H').
  simpl. rewrite !filter_app. simpl. rewrite Hd. split; reflexivity.
Qed.

Lemma unparseable_time_example :
  unparseable (reminder "fourth" "not-a-date" false) = true /\
  fst (ReminderManager.check_reminders example_now (stored example_reminders))
  = fst (ReminderManager.check_reminders example_now
           (stored (firstn 3 example_reminders))).
Proof.
  split; [reflexivity|].
  exact (proj2 (unparseable_time_is_skipped py_strptime example_now
                  (firstn 3 example_reminders) []
                  (reminder "fourth" "not-a-date" false) eq_refl eq_refl)).
Defined.

(** C3: [save] followed by [load] yields the saved sequence of valid
    records, field for field: a record that has its [completed] comes back
    as it is; one that omitted it comes back with [completed] false and
    every other field as it was. *)
Theorem save_load_round_trip (rs : list pyval) (fs : json_file) :
  forallb valid_reminder rs = true ->
  bind (ReminderManager.save (PList rs)) (fun _ => ReminderManager.load) fs
  = (Ok (PList (map with_completed rs)), stored rs) /\
  Forall (fun r =>
            (forall k, k <> "completed" ->
               field k (with_completed r) = field k r) /\
            field "completed" (with_completed r)
            = Some (PBool (is_completed r)) /\
            (field "completed" r = None -> is_completed r = false) /\
            (field "completed" r <> None -> with_completed r = r)) rs.
Proof.
  intros H. split.
  - cbn -[ReminderManager.load].
    exact (load_stored rs (valid_is_dict rs H)).
  - apply Forall_forall. intros r Hr.
    rewrite forallb_forall in H. specialize (H r Hr).
    destruct (with_completed_populated r H) as (_ & _ & _ & Hc).
    repeat split.
    + intros k Hk. now apply with_completed_other.
    + exact Hc.
    + unfold is_completed. now intros ->.
    + apply with_completed_present.
Qed.

Lemma save_load_example :
  forallb valid_reminder [old_reminder "call" "2024-01-01"] = true /\
  fst (bind (ReminderManager.save (PList [old_reminder "call" "2024-01-01"]))
            (fun _ => ReminderManager.load) None)
  = Ok (PList [reminder "call" "2024-01-01" false]).
Proof.
  split; [reflexivity|].
  rewrite (proj1 (save_load_round_trip [old_reminder "call" "2024-01-01"]
                    None eq_refl)).
  reflexivity.
Defined.

(** C4: from a store that [load] reads as the records [prior], after the
    calls of [add], in order, [load] returns [prior] followed by one new
    record per call, in call order, each with the task stripped, the time
    as given, and [completed] false. *)
Theorem add_appends_in_call_order (fs : json_file) (prior : list pyval)
  (calls : list (string * string)) :
  fst (ReminderManager.load fs) = Ok (PList prior) ->
  fst (bind (ReminderManager.add_all calls) (fun _ => ReminderManager.load) fs)
  = Ok (PList (prior ++ map new_record calls)) /\
  length (map new_record calls) = length calls /\
  Forall2 (fun call r =>
             r = PDict [("task", PStr (strip (fst call)));
                        ("time", PStr (snd call));
                        ("completed", PBool false)])
          calls (map new_record calls).
Proof.
  intros H. split; [exact (add_all_to_loaded calls fs prior H)|].
  split; [apply length_map|].
  induction calls as [|c calls IH]; simpl; constructor;
    [reflexivity | exact IH].
Qed.

Lemma add_example :
  fst (ReminderManager.load (stored [old_reminder "call" "2024-01-01"]))
  = Ok (PList [reminder "call" "2024-01-01" false]) /\
  fst (bind (ReminderManager.add_all
               [("  tea ", "2024-02-01 10:00"); ("run", "2024-02-02")])
            (fun _ => ReminderManager.load)
            (stored [old_reminder "call" "2024-01-01"]))
  = Ok (PList [reminder "call" "2024-01-01" false;
               reminder "tea" "2024-02-01 10:00" false;
               reminder "run" "2024-02-02" false]).
Proof.
  split; [reflexivity|].
  rewrite (proj1 (add_appends_in_call_order
                    (stored [old_reminder "call" "2024-01-01"])
                    [reminder "call" "2024-01-01" false]
                    [("  tea ", "2024-02-01 10:00"); ("run", "2024-02-02")]
                    eq_refl)).
  reflexivity.
Defined.

(** C9: every record [load] returns from a store of valid records has its
    three fields; a missing [completed] is false in the record returned,
    and the file is as it was: the default is not written. *)
Theorem loaded_records_are_populated (rs : list pyval) :
  forallb valid_reminder rs = true ->
  ReminderManager.load (stored rs)
  = (Ok (PList (map with_completed rs)), stored rs) /\
  forallb populated (map with_completed rs) = true /\
  Forall (fun r => field "completed" r = None ->
                   field "completed" (with_completed r) = Some (PBool false))
         rs.
Proof.
  intros H. split; [exact (load_stored rs (valid_is_dict rs H))|].
  rewrite forallb_forall in H. split.
  - apply forallb_forall. intros r' Hr'.
    apply in_map_iff in Hr' as (r & <- & Hr).
    exact (proj1 (with_completed_populated r (H r Hr))).
  - apply Forall_forall. intros r Hr Hc.
    destruct (with_completed_populated r (H r Hr)) as (_ & _ & _ & E).
    rewrite E. unfold is_completed. now rewrite Hc.
Qed.

Lemma loaded_records_example :
  forallb valid_reminder [old_reminder "call" "2024-01-01"] = true /\
  ReminderManager.load (stored [old_reminder "call" "2024-01-01"])
  = (Ok (PList [reminder "call" "2024-01-01" false]),
     stored [old_reminder "call" "2024-01-01"]).
Proof.
  split; [reflexivity|].
  exact (proj1 (loaded_records_are_populated
                  [old_reminder "call" "2024-01-01"] eq_refl)).
Defined.

(** C6, as stated, fails under both readings of valid structured data.  A
    file that holds the number 5 can be decoded, and [load] raises on it; a
    file that holds an empty object is no array of objects, and [load]
    returns it. *)
Lemma load_raises_not_iff_malformed :
  ~ (forall fs, load_raises fs <->
                exists t, fs = Some t /\ decodable t = false) /\
  ~ (forall fs, load_raises fs <->
                exists t, fs = Some t /\ record_array t = false).
Proof.
  split; intros H.
  - destruct (proj1 (H (Some (Encodes (PNum 5))))) as (t & E & Hd).
    + exists TypeError. reflexivity.
    + injection E as <-. discriminate.
  - destruct (proj2 (H (Some (Encodes (PDict []))))) as [e He].
    + eexists. split; reflexivity.
    + discriminate.
Qed.

(** C6, amended: [load] raises the decoding error on a file that cannot be
    decoded, and leaves it to the caller; it returns without an error on an
    absent file and on a file that holds an array of objects, the stored
    sequence with [completed] defaulted; so [load] raises only on a file
    that exists and holds no array of objects. *)
Theorem load_raises_on_malformed (fs : json_file) :
  (forall raw, fs = Some (Undecodable raw) ->
     ReminderManager.load fs = (Raise JSONDecodeError, fs)) /\
  (fs = None -> ReminderManager.load fs = (Ok (PList []), fs)) /\
  (forall l, fs = stored l -> forallb is_dict l = true ->
     ReminderManager.load fs = (Ok (PList (map with_completed l)), fs)) /\
  (load_raises fs -> exists t, fs = Some t /\ record_array t = false).
Proof.
  repeat split.
  - now intros raw ->.
  - now intros ->.
  - intros l -> Hl. exact (load_stored l Hl).
  - intros [e He]. destruct fs as [t|]; [|discriminate].
    exists t. split; [reflexivity|].
    destruct (record_array t) eqn:Ht; [|reflexivity].
    destruct t as [raw|[]]; try discriminate. simpl in Ht.
    change (Some (Encodes (PList l))) with (stored l) in He.
    rewrite (load_stored l Ht) in He. discriminate.
Qed.

Lemma load_raises_example :
  load_raises (Some (Undecodable "{")) /\
  ReminderManager.load (Some (Undecodable "{"))
  = (Raise JSONDecodeError, Some (Undecodable "{")) /\
  exists t, Some (Undecodable "{") = Some t /\ record_array t = false.
Proof.
  assert (H : load_raises (Some (Undecodable "{"))).
  { exists JSONDecodeError. reflexivity. }
  split; [exact H|]. split.
  - exact (proj1 (load_raises_on_malformed (Some (Undecodable "{")))
             "{" eq_refl).
  - exact (proj2 (proj2 (proj2 (load_raises_on_malformed
                                  (Some (Undecodable "{"))))) H).
Defined.

(** ** The claims on both stores *)

(** C8: with no backing file, [load] of either store returns the empty
    result, an empty sequence or an empty table under the columns Item,
    Amount and Date; any number of calls in a row return that result each
    time, none raises, and the file is still absent after them. *)
Theorem load_of_absent_file (F : Type) (n : nat) :
  ReminderManager.load None = (Ok (PList []), None) /\
  @ExpenseManager.load F None
  = (Ok {| columns := ["Item"; "Amount"; "Date"]; rows := [] |}, None) /\
  repeatedly n ReminderManager.load None
  = (Ok (repeat (PList []) n), None) /\
  repeatedly n (@ExpenseManager.load F) None
  = (Ok (repeat {| columns := ["Item"; "Amount"; "Date"]; rows := [] |} n),
     None).
Proof.
  repeat split.
  - induction n as [|n IH]; [reflexivity|].
    simpl repeatedly. cbn -[repeatedly ReminderManager.load].
    change (ReminderManager.load None) with (Ok (PList []), @None json_text).
    cbn -[repeatedly ReminderManager.load]. now rewrite IH.
  - induction n as [|n IH]; [reflexivity|].
    simpl repeatedly. cbn -[repeatedly ExpenseManager.load].
    change (@ExpenseManager.load F None)
      with (Ok {| columns := ["Item"; "Amount"; "Date"];
                  rows := @nil (Expense F) |}, @None (csv_text F)).
    cbn -[repeatedly ExpenseManager.load]. now rewrite IH.
Qed.

(** ** The claims on the expense store *)

(** C5, as stated, fails: on a file that [read_csv] cannot parse, [add]
    with the amount [abc] fails with the error of the parser, which is not
    an invalid amount. *)
Lemma add_invalid_amount_counterexample :
  ~ (forall (fs : csv_file float) (amount : amount_arg float),
       (exists e, ExpenseManager.py_float amount = Raise e) ->
       exists e, invalid_amount e = true /\
                 ExpenseManager.add "Tea" amount "2024-01-01" fs
                 = (Raise e, fs)).
Proof.
  intros H.
  destruct (H (Some (Unparseable "")) (Text "abc")) as (e & He & Ha).
  - exists ValueError. reflexivity.
  - cbn in Ha. injection Ha as <-. discriminate.
Qed.

(** C5, amended: [add] with an amount that [float] refuses fails and writes
    nothing, whatever the file; the error is the invalid amount whenever
    the file is absent or can be read, and the error of [load] otherwise. *)
Theorem add_invalid_amount_writes_nothing (F : Type) (lib : FloatLib F)
  (fs : csv_file F) (item date_str : string) (amount : amount_arg F)
  (e : exn) :
  ExpenseManager.py_float amount = Raise e ->
  invalid_amount e = true /\
  (exists e', ExpenseManager.add item amount date_str fs = (Raise e', fs)) /\
  (forall df, fst (ExpenseManager.load fs) = Ok df ->
     ExpenseManager.add item amount date_str fs = (Raise e, fs)) /\
  (forall e', fst (ExpenseManager.load fs) = Raise e' ->
     ExpenseManager.add item amount date_str fs = (Raise e', fs)).
Proof.
  intros H. split.
  - destruct amount as [x|s|]; simpl in H; try discriminate.
    + destruct (float_of_text s); [discriminate|]. now injection H as <-.
    + now injection H as <-.
  - unfold ExpenseManager.add.
    destruct fs as [[raw|rs]|]; cbn; unfold lift; try rewrite H; cbn.
    + split; [eexists; reflexivity|]. split; [discriminate|].
      now intros e' [= <-].
    + split; [eexists; reflexivity|]. split; [reflexivity | discriminate].
    + split; [eexists; reflexivity|]. split; [reflexivity | discriminate].
Qed.

Lemma add_invalid_amount_example :
  ExpenseManager.py_float (Text "abc") = Raise ValueError /\
  ExpenseManager.add "Tea" (Text "abc") "2024-01-01"
    (Some (Table example_expenses))
  = (Raise ValueError, Some (Table example_expenses)).
Proof.
  split; [reflexivity|].
  exact (proj1 (proj2 (proj2 (add_invalid_amount_writes_nothing float float64
           (Some (Table example_expenses)) "Tea" "2024-01-01" (Text "abc")
           ValueError eq_refl)))
         {| columns := ExpenseManager.header; rows := example_expenses |}
         eq_refl).
Defined.

(** ** The greatest and the least amount *)

Section Scan.

Context {A : Type} (le : A -> A -> bool).

Lemma scan_first_best (xs : list A) :
  forall (seen : list A) (best : A) (best_i : nat),
  ordered_by le (seen ++ xs) ->
  first_best le seen best_i best ->
  exists x, first_best le (seen ++ xs)
                       (scan le best best_i (length seen) xs) x.
Proof.
  induction xs as [|x xs IH]; intros seen best best_i Ho Hb; simpl.
  - exists best. now rewrite app_nil_r.
  - destruct Hb as (Hn & Hall & Hfirst).
    assert (Hi : (best_i < length seen)%nat).
    { apply nth_error_Some. congruence. }
    assert (Hin : In best (seen ++ x :: xs)).
    { apply in_or_app. left. exact (nth_error_In _ _ Hn). }
    assert (Hx : In x (seen ++ x :: xs)).
    { apply in_or_app. right. now left. }
    assert (Hs : forall y, In y seen -> In y (seen ++ x :: xs)).
    { intros y Hy. apply in_or_app. now left. }
    destruct Ho as [Htot Htrans].
    replace (seen ++ x :: xs) with ((seen ++ [x]) ++ xs) in *
      by now rewrite <- app_assoc.
    replace (S (length seen)) with (length (seen ++ [x]))
      by (rewrite length_app; simpl; lia).
    destruct (le x best) eqn:E; simpl; apply IH; try (split; assumption).
    + split; [|split].
      * rewrite nth_error_app1 by exact Hi. exact Hn.
      * intros y Hy. apply in_app_or in Hy as [Hy | [<- | []]];
          [now apply Hall | exact E].
      * intros k y Hk. rewrite nth_error_app1 by lia. now apply Hfirst.
    + assert (Hbx : le best x = true).
      { destruct (Htot x best Hx Hin) as [H | H]; congruence. }
      split; [|split].
      * rewrite nth_error_app2 by lia. now rewrite Nat.sub_diag.
      * intros y Hy. apply in_app_or in Hy as [Hy | [<- | []]].
        -- apply (Htrans y best x); auto.
        -- destruct (Htot x x Hx Hx); assumption.
      * intros k y Hk. rewrite nth_error_app1 by exact Hk. intros Hy.
        destruct (le x y) eqn:Exy; [|reflexivity].
        apply nth_error_In in Hy.
        rewrite (Htrans x y best Hx (Hs y Hy) Hin Exy (Hall y Hy)) in E.
        discriminate.
Qed.

Lemma scan_from_head (x : A) (xs : list A) :
  ordered_by le (x :: xs) ->
  exists y, first_best le (x :: xs) (scan le x 0 1 xs) y.
Proof.
  intros Ho. apply (scan_first_best xs [x] x 0 Ho).
  split; [reflexivity|]. split.
  - intros y [<- | []]. destruct Ho as [Htot _].
    destruct (Htot x x (or_introl eq_refl) (or_introl eq_refl)); assumption.
  - intros k y Hk. lia.
Qed.

End Scan.

Section Insights.

Context {F : Type} {lib : FloatLib F}.

Lemma argmax_is_scan (xs : list F) (best : F) (best_i i : nat) :
  ExpenseManager.argmax_from best best_i i xs = scan float_le best best_i i xs.
Proof.
  revert best best_i i. induction xs as [|x xs IH]; intros; simpl;
    [reflexivity|].
  now rewrite !IH.
Qed.

Lemma argmin_is_scan (xs : list F) (best : F) (best_i i : nat) :
  ExpenseManager.argmin_from best best_i i xs
  = scan (fun a b => float_le b a) best best_i i xs.
Proof.
  revert best best_i i. induction xs as [|x xs IH]; intros; simpl;
    [reflexivity|].
  now rewrite !IH.
Qed.

Lemma ordered_both (xs : list F) :
  ordered xs ->
  ordered_by float_le xs /\ ordered_by (fun a b => float_le b a) xs.
Proof.
  intros [Htot Htrans]. split; split.
  - exact Htot.
  - exact Htrans.
  - intros x y Hx Hy. destruct (Htot x y Hx Hy); auto.
  - intros x y z Hx Hy Hz Hxy Hyz. exact (Htrans z y x Hz Hy Hx Hyz Hxy).
Qed.

(** A best amount is the amount of a row. *)
Lemma first_best_row (le : F -> F -> bool) (rs : list (Expense F))
  (i : nat) (x : F) :
  first_best le (map Amount rs) i x ->
  exists r, nth_error rs i = Some r /\ Amount r = x /\
    (forall r', In r' rs -> le (Amount r') (Amount r) = true) /\
    (forall k r', (k < i)%nat -> nth_error rs k = Some r' ->
       le (Amount r) (Amount r') = false).
Proof.
  intros (Hn & Hall & Hfirst). rewrite nth_error_map in Hn.
  destruct (nth_error rs i) as [r|] eqn:Er; [|discriminate].
  injection Hn as <-. exists r. repeat split.
  - intros r' Hr'. apply Hall. now apply in_map.
  - intros k r' Hk Hr'. apply (Hfirst k); [exact Hk|].
    now rewrite nth_error_map, Hr'.
Qed.

Lemma insights_of_rows (r : Expense F) (rs : list (Expense F)) :
  ordered (map Amount (r :: rs)) ->
  exists i j most least,
    first_greatest (r :: rs) i most /\
    first_least (r :: rs) j least /\
    ExpenseManager.get_spending_insights (Some (Table (r :: rs)))
    = (Ok (insight_lines (r :: rs) most least), Some (Table (r :: rs))).
Proof.
  intros Ho. destruct (ordered_both _ Ho) as [Hmax Hmin].
  simpl map in Hmax, Hmin.
  destruct (scan_from_head _ _ _ Hmax) as [x Hx].
  destruct (scan_from_head _ _ _ Hmin) as [y Hy].
  change (Amount r :: map Amount rs) with (map Amount (r :: rs)) in Hx, Hy.
  destruct (first_best_row _ _ _ _ Hx) as (most & Hi & _ & Hall & Hfirst).
  destruct (first_best_row _ _ _ _ Hy) as (least & Hj & _ & Hall' & Hfirst').
  exists (scan float_le (Amount r) 0 1 (map Amount rs)),
         (scan (fun a b => float_le b a) (Amount r) 0 1 (map Amount rs)),
         most, least.
  split; [now repeat split|]. split; [now repeat split|].
  unfold ExpenseManager.get_spending_insights.
  cbn -[nth_error series_sum series_mean format_2f str_of_nat map
        ExpenseManager.argmax_from ExpenseManager.argmin_from String.append].
  unfold lift, ExpenseManager.loc.
  cbn -[nth_error series_sum series_mean format_2f str_of_nat map
        ExpenseManager.argmax_from ExpenseManager.argmin_from String.append].
  unfold ExpenseManager.idxmax, ExpenseManager.idxmin. simpl map.
  cbv beta iota.
  rewrite argmax_is_scan, argmin_is_scan, Hi.
  cbn -[nth_error series_sum series_mean format_2f str_of_nat map scan
        String.append].
  rewrite Hj. reflexivity.
Qed.

End Insights.

(** C2: the insights of an empty table, or of no file, are the one line
    that says there is nothing to analyze, and nothing is divided; those
    of a table with rows are, in this order, the total (the sum of the
    amounts, two decimals), the average (their mean, two decimals), the
    count of the rows, the first row with the greatest amount and the first
    row with the least amount, each as its item and its amount. *)
Theorem insights_of_table (F : Type) (lib : FloatLib F)
  (rs : list (Expense F)) :
  ordered (map Amount rs) ->
  ExpenseManager.get_spending_insights (@None (csv_text F))
  = (Ok ["No expenses yet to analyze"], None) /\
  match rs with
  | [] =>
      ExpenseManager.get_spending_insights (Some (Table rs))
      = (Ok ["No expenses yet to analyze"], Some (Table rs))
  | _ :: _ =>
      exists i j most least,
        first_greatest rs i most /\
        first_least rs j least /\
        ExpenseManager.get_spending_insights (Some (Table rs))
        = (Ok (insight_lines rs most least), Some (Table rs))
  end.
Proof.
  intros Ho. split; [reflexivity|].
  destruct rs as [|r rs]; [reflexivity|].
  exact (insights_of_rows r rs Ho).
Qed.

Lemma example_expenses_ordered : ordered (map Amount example_expenses).
Proof.
  split.
  - intros x y [<- | [<- | []]] [<- | [<- | []]]; vm_compute; auto.
  - intros x y z [<- | [<- | []]] [<- | [<- | []]] [<- | [<- | []]];
      vm_compute; auto.
Qed.

(** The example of the specification: tea for 20 and lunch for 150. *)
Lemma insights_example :
  ordered (map Amount example_expenses) /\
  (exists i j most least,
     first_greatest example_expenses i most /\
     first_least example_expenses j least /\
     ExpenseManager.get_spending_insights (Some (Table example_expenses))
     = (Ok (insight_lines example_expenses most least),
        Some (Table example_expenses))) /\
  fst (ExpenseManager.get_spending_insights (Some (Table example_expenses)))
  = Ok ["💰 Total spent: ₹170.00"; "📊 Average per expense: ₹85.00";
        "📝 Total expenses: 2"; "🔥 Most expensive: Lunch - ₹150.00";
        "💸 Cheapest: Tea - ₹20.00"].
Proof.
  split; [exact example_expenses_ordered|]. split.
  - exact (proj2 (insights_of_table float float64 example_expenses
                    example_expenses_ordered)).
  - vm_compute. reflexivity.
Defined.

(** ** The weather lookups *)

Section Weather.

Context {lib : Requests}.

(** Whatever body without the code 200 the provider answers with, the
    morning brief prints the fallback and then reads [condition], which
    was never assigned. *)
Lemma morning_brief_non_200 (API_Key city_name : string) (body cod : pyval)
  (out : MorningBrief.console) :
  (forall url, requests_get url = Ok {| json := Ok body |}) ->
  py_get body "cod" = Ok cod ->
  eq_int cod 200 = false ->
  MorningBrief.weather API_Key city_name out
  = (Raise (NameError "condition"),
     out ++ banner ++ [[PStr "City not found! Please check spelling."]]).
Proof.
  intros Hget Hcod H200. unfold MorningBrief.weather.
  cbn -[String.append]. unfold lift, MorningBrief.print.
  rewrite !Hget. cbn -[String.append]. rewrite Hcod, H200.
  cbn -[String.append]. rewrite <- !app_assoc. reflexivity.
Qed.

(** On the same answer the page of the dashboard shows the fallback and
    goes on. *)
Lemma dashboard_non_200 (key : string) (NEWS_API_KEY : option string)
  (city : string) (body cod : pyval) (p : page) :
  (forall url, requests_get url = Ok {| json := Ok body |}) ->
  py_get body "cod" = Ok cod ->
  eq_int cod 200 = false ->
  key <> "" ->
  show_weather_news (Some key) NEWS_API_KEY city true false p
  = (Ok tt,
     p ++ [Header "🌤 Weather & 📰 News"; Subheader "🌤 Live Weather";
           Error "City not found"; Markdown "---";
           Subheader "📰 Latest News"]).
Proof.
  intros Hget Hcod H200 Hkey. unfold show_weather_news.
  assert (E : key_set (Some key) = true).
  { simpl. destruct (String.eqb_spec key ""); [contradiction | reflexivity]. }
  rewrite E. cbn -[String.append]. unfold lift, st.
  rewrite Hget. cbn -[String.append]. rewrite Hcod, H200.
  cbn -[String.append]. rewrite <- !app_assoc. reflexivity.
Qed.

Lemma succeeds_st (w : widget) : succeeds (st w).
Proof. intros p. eexists. reflexivity. Qed.

Lemma succeeds_ret : succeeds (ret tt).
Proof. intros p. eexists. reflexivity. Qed.

Lemma succeeds_then (m k : io page unit) :
  succeeds m -> succeeds k -> succeeds (bind m (fun _ => k)).
Proof.
  intros Hm Hk p. destruct (Hm p) as [p' E]. destruct (Hk p') as [p'' E'].
  exists p''. cbn. now rewrite E.
Qed.

(** [try: ... except: st.error(...)] never raises. *)
Lemma succeeds_try (m : io page unit) (w : widget) :
  succeeds (try_except m (fun _ => st w)).
Proof.
  intros p. cbn. destruct (m p) as [[[]|e] p']; eexists; reflexivity.
Qed.

(** The page of the dashboard never raises, whatever the providers do. *)
Lemma dashboard_never_raises (WEATHER_API_KEY NEWS_API_KEY : option string)
  (city : string) (get_weather get_news : bool) :
  succeeds (show_weather_news WEATHER_API_KEY NEWS_API_KEY city
              get_weather get_news).
Proof.
  unfold show_weather_news.
  repeat (apply succeeds_then; [try apply succeeds_st|]).
  - destruct (get_weather && key_set WEATHER_API_KEY);
      [apply succeeds_try | apply succeeds_ret].
  - destruct (get_news && key_set NEWS_API_KEY);
      [apply succeeds_try | apply succeeds_ret].
Qed.

End Weather.

(** C10 fails on the morning brief: when the provider answers that it does
    not know the city, the script prints the fallback and then ends with a
    [NameError], for [condition] is assigned under the code 200 only. *)
Theorem morning_brief_crashes_after_fallback (API_Key city_name : string) :
  @MorningBrief.weather (answers city_not_found) API_Key city_name []
  = (Raise (NameError "condition"),
     [[]; [PStr "⛅Weather"]; [PStr "Enter the city: "];
      [PStr "City not found! Please check spelling."]]).
Proof. reflexivity. Qed.

(** The same answer on the page of the dashboard. *)
Lemma dashboard_shows_fallback (city : string) :
  @show_weather_news (answers city_not_found) (Some "key") None city
    true false []
  = (Ok tt,
     [Header "🌤 Weather & 📰 News"; Subheader "🌤 Live Weather";
      Error "City not found"; Markdown "---"; Subheader "📰 Latest News"]).
Proof. reflexivity. Qed.

(** * Further properties of the code *)

(** ** Reminders of any shape *)

Lemma for_each_app {A B : Type} (xs ys : list A) (acc : B)
  (body : B -> A -> result B) :
  for_each (xs ++ ys) acc body
  = match for_each xs acc body with
    | Ok acc' => for_each ys acc' body
    | Raise e => Raise e
    end.
Proof.
  revert acc. induction xs as [|x xs IH]; intros acc; simpl; [reflexivity|].
  destruct (body acc x); [apply IH | reflexivity].
Qed.

Lemma with_completed_dict (d : dict) :
  exists d', with_completed (PDict d) = PDict d' /\
    (forall k, k <> "completed" -> dict_get k d' = dict_get k d) /\
    exists c, dict_get "completed" d' = Some c /\
              negb (truthy c) = not_done (PDict d).
Proof.
  unfold with_completed, dict_mem, not_done, field.
  destruct (dict_get "completed" d) as [c|] eqn:E.
  - exists d. split; [reflexivity|]. split; [reflexivity|].
    exists c. split; [exact E | reflexivity].
  - exists (d ++ [("completed", PBool false)]). split; [reflexivity|]. split.
    + intros k Hk. now apply dict_get_other.
    + exists (PBool false). rewrite dict_get_app, E. split; reflexivity.
Qed.

Section AnyShape.

Context {lib : Strptime}.

(** On a dictionary that has its [completed], the body of the loop never
    raises: it leaves the notifications as they are, or adds the task of a
    record that is not done. *)
Lemma check_one_dict (now : datetime) (acc : list pyval) (d : dict)
  (c : pyval) :
  dict_get "completed" d = Some c ->
  ReminderManager.check_one now acc (PDict d) = Ok acc \/
  (truthy c = false /\ is_text (dict_get "time" d) = true /\
   exists v, dict_get "task" d = Some v /\
             ReminderManager.check_one now acc (PDict d) = Ok (acc ++ [v])).
Proof.
  intros Hc. unfold ReminderManager.check_one.
  cbn -[datetime_le date_le date_of]. rewrite Hc.
  cbn -[datetime_le date_le date_of].
  destruct (truthy c) eqn:Et; cbn -[datetime_le date_le date_of];
    [now left|].
  destruct (dict_get "time" d) as [[| | |s| |]|] eqn:Es;
    cbn -[datetime_le date_le date_of]; try now left.
  destruct (strptime s "%Y-%m-%d %H:%M") as [t1|e1];
    cbn -[datetime_le date_le date_of].
  - destruct (datetime_le t1 now); cbn -[datetime_le date_le date_of];
      [|now left].
    destruct (dict_get "task" d) as [v|] eqn:Ev;
      cbn -[datetime_le date_le date_of].
    + right. repeat split. exists v. split; reflexivity.
    + destruct (strptime s "%Y-%m-%d") as [t2|e2];
        cbn -[datetime_le date_le date_of]; [|now left].
      destruct (date_le (date_of t2) (date_of now)); now left.
  - destruct (strptime s "%Y-%m-%d") as [t2|e2];
      cbn -[datetime_le date_le date_of]; [|now left].
    destruct (date_le (date_of t2) (date_of now));
      cbn -[datetime_le date_le date_of]; [|now left].
    destruct (dict_get "task" d) as [v|] eqn:Ev;
      cbn -[datetime_le date_le date_of]; [|now left].
    right. repeat split. exists v. split; reflexivity.
Qed.

Lemma check_one_loaded (now : datetime) (acc : list pyval) (r : pyval) :
  is_dict r = true ->
  exists acc',
    ReminderManager.check_one now acc (with_completed r) = Ok acc' /\
    (acc' = acc \/
     (not_done r = true /\ unnotifiable r = false /\
      exists v, acc' = acc ++ [v])).
Proof.
  destruct r as [| | | | |d]; try discriminate. intros _.
  destruct (with_completed_dict d) as (d' & -> & Hk & c & Hc & Hn).
  destruct (check_one_dict now acc d' c Hc)
    as [E | (Ht & Htime & v & Hv & E)]; rewrite E.
  - exists acc. split; [reflexivity | now left].
  - exists (acc ++ [v]). split; [reflexivity|]. right.
    rewrite <- Hn, Ht. unfold unnotifiable, field.
    rewrite <- (Hk "task"), <- (Hk "time"), Hv, Htime by discriminate.
    repeat split. now exists v.
Qed.

Lemma check_loop_any (now : datetime) (l acc : list pyval) :
  forallb is_dict l = true ->
  exists out,
    for_each (map with_completed l) acc (ReminderManager.check_one now)
    = Ok (acc ++ out) /\
    (length out <= length (filter not_done l))%nat.
Proof.
  revert acc. induction l as [|r l IH]; intros acc; simpl.
  - exists []. now rewrite app_nil_r.
  - intros H. apply andb_prop in H as [Hr Hl].
    destruct (check_one_loaded now acc r Hr)
      as (acc' & -> & [-> | (Hn & _ & v & ->)]).
    + destruct (IH acc Hl) as (out & -> & Hlen). exists out.
      split; [reflexivity|]. destruct (not_done r); simpl; lia.
    + destruct (IH (acc ++ [v]) Hl) as (out & -> & Hlen).
      exists (v :: out). rewrite <- app_assoc. split; [reflexivity|].
      rewrite Hn. simpl. lia.
Qed.

Lemma pending_loop (l : list pyval) (n : nat) :
  forallb is_dict l = true ->
  for_each (map with_completed l) n
    (fun n t =>
       completed <- getitem t "completed" ;;
       ret (if negb (truthy completed) then S n else n))
  = Ok (n + length (filter not_done l))%nat.
Proof.
  revert n. induction l as [|r l IH]; intros n; simpl.
  - now rewrite Nat.add_0_r.
  - intros H. apply andb_prop in H as [Hr Hl].
    destruct r as [| | | | |d]; try discriminate.
    destruct (with_completed_dict d) as (d' & -> & _ & c & Hc & Hn).
    cbn. rewrite Hc. cbn. rewrite Hn.
    destruct (not_done (PDict d)); rewrite (IH _ Hl); simpl; f_equal; lia.
Qed.

End AnyShape.

(** X1: on a file that holds an array of objects, whatever their fields,
    [check_reminders] does not raise and leaves the file as it is; the
    same on no file, where nothing is due. *)
Theorem check_reminders_never_raises (lib : Strptime) (now : datetime)
  (l : list pyval) :
  forallb is_dict l = true ->
  (exists out,
     ReminderManager.check_reminders now (stored l) = (Ok out, stored l)) /\
  ReminderManager.check_reminders now None = (Ok [], None).
Proof.
  intros H. split; [|reflexivity].
  destruct (check_loop_any now l [] H) as (out & E & _). exists out.
  unfold ReminderManager.check_reminders. cbn -[ReminderManager.load].
  rewrite (load_stored l H). cbn. unfold lift. now rewrite E.
Qed.

Lemma check_reminders_odd_example :
  forallb is_dict odd_reminders = true /\
  ReminderManager.check_reminders example_now (stored odd_reminders)
  = (Ok [PStr "first"], stored odd_reminders).
Proof.
  split; [reflexivity|].
  destruct (proj1 (check_reminders_never_raises py_strptime example_now
                     odd_reminders eq_refl)) as [out E].
  rewrite E. vm_compute in E. injection E as <-. reflexivity.
Defined.

(** X2: a stored object without a [task], or whose [time] is no text, is
    passed over in silence, due or not: the notifications are those of the
    store without it. *)
Theorem unnotifiable_record_is_skipped (lib : Strptime) (now : datetime)
  (before after : list pyval) (r : pyval) :
  forallb is_dict (before ++ r :: after) = true ->
  unnotifiable r = true ->
  fst (ReminderManager.check_reminders now (stored (before ++ r :: after)))
  = fst (ReminderManager.check_reminders now (stored (before ++ after))).
Proof.
  intros H Hr.
  assert (H' : forallb is_dict (before ++ after) = true).
  { rewrite forallb_app in H |- *. simpl in H.
    apply andb_prop in H as [Hb Ha]. apply andb_prop in Ha as [_ Ha].
    now rewrite Hb, Ha. }
  assert (Hd : is_dict r = true).
  { rewrite forallb_app in H. simpl in H.
    apply andb_prop in H as [_ Ha]. now apply andb_prop in Ha as [Ha _]. }
  unfold ReminderManager.check_reminders. cbn -[ReminderManager.load].
  rewrite (load_stored _ H), (load_stored _ H'). cbn. unfold lift.
  rewrite !map_app, !for_each_app. simpl.
  destruct (for_each (map with_completed before) []
              (ReminderManager.check_one now)) as [acc|e]; [|reflexivity].
  destruct (check_one_loaded now acc r Hd)
    as (acc' & -> & [-> | (_ & Hu & _)]); [reflexivity | congruence].
Qed.

Lemma unnotifiable_example :
  unnotifiable (PDict [("time", PStr "2024-01-01 09:00")]) = true /\
  fst (ReminderManager.check_reminders example_now (stored odd_reminders))
  = fst (ReminderManager.check_reminders example_now
           (stored (tl odd_reminders))).
Proof.
  split; [reflexivity|].
  exact (unnotifiable_record_is_skipped py_strptime example_now []
           (tl odd_reminders) (PDict [("time", PStr "2024-01-01 09:00")])
           eq_refl eq_refl).
Defined.

(** X3: what [load] returns as a list, saved and loaded again, comes back
    the same, whatever the file held: the defaults of [load] are applied
    once. *)
Theorem loaded_list_is_stable (fs fs' : json_file) (l : list pyval) :
  fst (ReminderManager.load fs) = Ok (PList l) ->
  bind (ReminderManager.save (PList l)) (fun _ => ReminderManager.load) fs'
  = (Ok (PList l), stored l).
Proof.
  intros H. cbn -[ReminderManager.load]. apply load_normal.
  destruct (load_list_inv fs l H) as [[_ ->] | (l0 & _ & E)];
    [reflexivity | exact (loop_normal l0 l E)].
Qed.

Lemma loaded_list_example :
  fst (ReminderManager.load
         (stored [old_reminder "call" "2024-01-01"; PStr "completed"]))
  = Ok (PList [reminder "call" "2024-01-01" false; PStr "completed"]) /\
  bind (ReminderManager.save
          (PList [reminder "call" "2024-01-01" false; PStr "completed"]))
       (fun _ => ReminderManager.load) None
  = (Ok (PList [reminder "call" "2024-01-01" false; PStr "completed"]),
     stored [reminder "call" "2024-01-01" false; PStr "completed"]).
Proof.
  split; [reflexivity|].
  exact (loaded_list_is_stable
           (stored [old_reminder "call" "2024-01-01"; PStr "completed"]) None
           _ eq_refl).
Defined.

(** X4: a successful [add] rewrites the whole file: it holds the records
    as [load] returned them, so each with its [completed], followed by the
    new record. *)
Theorem add_persists_defaults (rs : list pyval) (task_text date_time : string) :
  forallb is_dict rs = true ->
  ReminderManager.add task_text date_time (stored rs)
  = (Ok tt,
     stored (map with_completed rs ++ [new_record (task_text, date_time)])).
Proof.
  intros H.
  apply (proj1 (add_to_loaded (stored rs) (map with_completed rs)
                  (task_text, date_time)
                  (f_equal fst (load_stored rs H)))).
Qed.

Lemma add_persists_example :
  forallb is_dict [old_reminder "call" "2024-01-01"] = true /\
  ReminderManager.add " tea " "2024-02-01 10:00"
    (stored [old_reminder "call" "2024-01-01"])
  = (Ok tt, stored [reminder "call" "2024-01-01" false;
                    reminder "tea" "2024-02-01 10:00" false]).
Proof.
  split; [reflexivity|].
  exact (add_persists_defaults [old_reminder "call" "2024-01-01"]
           " tea " "2024-02-01 10:00" eq_refl).
Defined.

(** X5: where [load] does not return a list, [add] raises and the file is
    as it was: a file that cannot be decoded, or that holds something else
    than an array, is never written over. *)
Theorem add_never_overwrites_unreadable (fs : json_file)
  (task_text date_time : string) :
  (forall prior, fst (ReminderManager.load fs) <> Ok (PList prior)) ->
  exists e, ReminderManager.add task_text date_time fs = (Raise e, fs).
Proof.
  intros H. unfold ReminderManager.add. cbn -[ReminderManager.load].
  pose proof (load_keeps_file fs) as Hs.
  destruct (ReminderManager.load fs) as [[v|e] fs']; simpl in H, Hs; subst fs'.
  - destruct v; try (eexists; reflexivity).
    now destruct (H l).
  - eexists. reflexivity.
Qed.

Lemma add_never_overwrites_example :
  ReminderManager.add "tea" "2024-02-01" (Some (Encodes (PDict [])))
  = (Raise (AttributeError "append"), Some (Encodes (PDict []))) /\
  ReminderManager.add "tea" "2024-02-01" (Some (Undecodable "{"))
  = (Raise JSONDecodeError, Some (Undecodable "{")).
Proof.
  split.
  - destruct (add_never_overwrites_unreadable (Some (Encodes (PDict [])))
                "tea" "2024-02-01") as [e E]; [discriminate|].
    rewrite E. vm_compute in E. injection E as <-. reflexivity.
  - destruct (add_never_overwrites_unreadable (Some (Undecodable "{"))
                "tea" "2024-02-01") as [e E]; [discriminate|].
    rewrite E. vm_compute in E. injection E as <-. reflexivity.
Defined.

(** X6: on a file that holds an array of objects, the pending count of the
    home page is the number of records whose [completed] is absent or
    false, and the notifications of [check_reminders] are never more. *)
Theorem pending_bounds_notifications (lib : Strptime) (now : datetime)
  (l : list pyval) :
  forallb is_dict l = true ->
  Home.pending (stored l) = (Ok (length (filter not_done l)), stored l) /\
  exists out,
    fst (ReminderManager.check_reminders now (stored l)) = Ok out /\
    (length out <= length (filter not_done l))%nat.
Proof.
  intros H. split.
  - unfold Home.pending. cbn -[ReminderManager.load].
    rewrite (load_stored l H). pose proof (pending_loop l 0 H) as E.
    cbn in E |- *. unfold lift. now rewrite E.
  - destruct (check_loop_any now l [] H) as (out & E & Hlen). exists out.
    split; [|exact Hlen].
    unfold ReminderManager.check_reminders. cbn -[ReminderManager.load].
    rewrite (load_stored l H). cbn. unfold lift. now rewrite E.
Qed.

Lemma pending_example :
  forallb is_dict example_reminders = true /\
  Home.pending (stored example_reminders) = (Ok 4%nat, stored example_reminders).
Proof.
  split; [reflexivity|].
  exact (proj1 (pending_bounds_notifications py_strptime example_now
                  example_reminders eq_refl)).
Defined.

(** ** The news *)

Lemma headlines_titled (articles : list pyval) :
  forall (i : Z) (out : MorningBrief.console),
  forallb has_title articles = true ->
  MorningNews.headlines articles i out
  = (Ok tt, out ++ numbered (map title_of articles) i).
Proof.
  induction articles as [|a articles IH]; intros i out; simpl.
  - intros _. now rewrite app_nil_r.
  - intros H. apply andb_prop in H as [Ha Hl].
    unfold has_title, title_of, field in *.
    destruct a as [| | | | |d]; try discriminate.
    destruct (dict_get "title" d) as [t|] eqn:Et; [|discriminate].
    cbn -[MorningNews.headlines]. unfold lift, MorningNews.say.
    cbn -[MorningNews.headlines]. rewrite Et.
    rewrite (IH _ _ Hl). now rewrite <- app_assoc.
Qed.

Lemma news_loop_dicts (articles : list pyval) :
  forall (p : page),
  forallb is_dict articles = true ->
  news_loop articles p = (Ok tt, p ++ flat_map article_widgets articles).
Proof.
  induction articles as [|a articles IH]; intros p; simpl.
  - intros _. now rewrite app_nil_r.
  - intros H. apply andb_prop in H as [Ha Hl].
    destruct a as [| | | | |d]; try discriminate.
    cbn -[news_loop]. unfold lift, st. cbn -[news_loop].
    destruct (dict_get "title" d), (dict_get "description" d);
      cbn -[news_loop]; rewrite (IH _ Hl), <- !app_assoc; reflexivity.
Qed.

(** X7: when the provider answers with a list of results, the morning
    brief prints the two headings and then the titles of the first five
    results at most, in order and numbered from 1; only those five need a
    title. *)
Theorem morning_news_prints_five_at_most (news_API_Key : string) (d : dict)
  (articles : list pyval) (out : MorningBrief.console) :
  dict_get "results" d = Some (PList articles) ->
  forallb has_title (firstn 5 articles) = true ->
  @MorningNews.news (answers (PDict d)) news_API_Key out
  = (Ok tt,
     out ++ [[]; [PStr "📰Live News"]; []; [PStr "🗞️ Top News Headlines:"]]
         ++ numbered (map title_of (firstn 5 articles)) 1) /\
  (length (numbered (map title_of (firstn 5 articles)) 1) <= 5)%nat.
Proof.
  intros Hd Ht. split.
  - unfold MorningNews.news.
    cbn -[MorningNews.headlines firstn String.append].
    unfold lift, MorningNews.say.
    cbn -[MorningNews.headlines firstn String.append]. rewrite Hd.
    cbn -[MorningNews.headlines firstn String.append].
    rewrite (headlines_titled _ _ _ Ht), <- !app_assoc. reflexivity.
  - assert (E : forall l i, length (numbered l i) = length l).
    { induction l as [|x l IH]; intros i; simpl; [reflexivity|].
      now rewrite IH. }
    rewrite E, length_map. apply firstn_le_length.
Qed.

Lemma morning_news_example :
  @MorningNews.news
    (answers (PDict [("results", PList (firstn 1 two_articles))])) "key" []
  = (Ok tt,
     [[]; [PStr "📰Live News"]; []; [PStr "🗞️ Top News Headlines:"];
      [PNum 1; PStr ". "; PStr "Rain"]]).
Proof.
  exact (proj1 (morning_news_prints_five_at_most "key"
                  [("results", PList (firstn 1 two_articles))]
                  (firstn 1 two_articles) [] eq_refl eq_refl)).
Defined.

(** X8: when the answer has no results, as a refusal of the provider has
    none, the morning brief ends with a [KeyError] after the first
    heading, and the dashboard shows its headings and no article. *)
Theorem news_without_results (key city : string) (d : dict)
  (WEATHER_API_KEY : option string) (out : MorningBrief.console)
  (p : page) :
  dict_get "results" d = None ->
  key <> "" ->
  @MorningNews.news (answers (PDict d)) key out
  = (Raise (KeyError "results"), out ++ [[]; [PStr "📰Live News"]]) /\
  @show_weather_news (answers (PDict d)) WEATHER_API_KEY (Some key) city
    false true p
  = (Ok tt,
     p ++ [Header "🌤 Weather & 📰 News"; Subheader "🌤 Live Weather";
           Markdown "---"; Subheader "📰 Latest News"]).
Proof.
  intros Hd Hk. split.
  - unfold MorningNews.news. cbn -[String.append].
    unfold lift, MorningNews.say. cbn -[String.append]. rewrite Hd.
    now rewrite <- !app_assoc.
  - unfold show_weather_news.
    assert (E : key_set (Some key) = true).
    { simpl. destruct (String.eqb_spec key ""); [contradiction|reflexivity]. }
    rewrite E. cbn -[String.append]. unfold lift, st.
    cbn -[String.append]. rewrite Hd. cbn -[String.append].
    now rewrite <- !app_assoc.
Qed.

Lemma news_without_results_example :
  @MorningNews.news (answers (PDict [("status", PStr "error")])) "key" []
  = (Raise (KeyError "results"), [[]; [PStr "📰Live News"]]).
Proof.
  exact (proj1 (news_without_results "key" "Delhi"
                  [("status", PStr "error")] None [] []
                  eq_refl ltac:(discriminate))).
Defined.

(** X9: the page of the dashboard shows the first five results at most,
    each as its title, its description and a divider; a result without a
    title is shown as [No title]. *)
Theorem dashboard_news_shows_five_at_most (key city : string) (d : dict)
  (WEATHER_API_KEY : option string) (articles : list pyval) (p : page) :
  key <> "" ->
  dict_get "results" d = Some (PList articles) ->
  forallb is_dict (firstn 5 articles) = true ->
  @show_weather_news (answers (PDict d)) WEATHER_API_KEY (Some key) city
    false true p
  = (Ok tt,
     p ++ [Header "🌤 Weather & 📰 News"; Subheader "🌤 Live Weather";
           Markdown "---"; Subheader "📰 Latest News"]
       ++ flat_map article_widgets (firstn 5 articles)).
Proof.
  intros Hk Hd Ha. unfold show_weather_news.
  assert (E : key_set (Some key) = true).
  { simpl. destruct (String.eqb_spec key ""); [contradiction|reflexivity]. }
  rewrite E. cbn -[String.append firstn]. unfold lift, st.
  cbn -[String.append firstn]. rewrite Hd. cbn -[String.append firstn].
  change (fix loop (items : list pyval) : io page unit :=
            match items with
            | [] => fun s => (Ok tt, s)
            | article :: items' => _
            end) with news_loop.
  rewrite (news_loop_dicts _ _ Ha). now rewrite <- !app_assoc.
Qed.

Lemma dashboard_news_example :
  @show_weather_news (answers (PDict two_results)) None (Some "key") "Delhi"
    false true []
  = (Ok tt,
     [Header "🌤 Weather & 📰 News"; Subheader "🌤 Live Weather";
      Markdown "---"; Subheader "📰 Latest News";
      Written [PStr "**"; PStr "Rain"; PStr "**"];
      Written [PStr "_"; PStr ""; PStr "_"]; Divider;
      Written [PStr "**"; PStr "No title"; PStr "**"];
      Written [PStr "_"; PStr "wet"; PStr "_"]; Divider]).
Proof.
  exact (dashboard_news_shows_five_at_most "key" "Delhi" two_results None
           two_articles [] ltac:(discriminate) eq_refl eq_refl).
Defined.

(** ** The suggestions for an occasion *)

Lemma get_default_or_entry (k : string) (d : list (string * list string))
  (default : list string) :
  RestaurantManager.get k d default = default \/
  In (RestaurantManager.get k d default) (map snd d).
Proof.
  induction d as [|[k' v] d IH]; simpl; [now left|].
  destruct (String.eqb k k'); [right; now left|].
  destruct IH as [IH | IH]; [now left | right; now right].
Qed.

(** X10: [get_occasion_suggestions] never returns an empty list, so that
    the first suggestion, which [Find for Occasion] reads, is there for
    any occasion; and each occasion the page offers has its own four
    suggestions. *)
Theorem occasion_suggestions_never_empty (occasion : string) :
  (exists s,
     first_suggestion (RestaurantManager.get_occasion_suggestions occasion)
     = Ok s) /\
  forallb (fun o =>
             existsb (String.eqb o) (map fst RestaurantManager.suggestions) &&
             (length (RestaurantManager.get_occasion_suggestions o) =? 4)%nat)
          occasions = true.
Proof.
  split; [|reflexivity].
  unfold RestaurantManager.get_occasion_suggestions.
  destruct (get_default_or_entry occasion RestaurantManager.suggestions
              ["Indian"; "Chinese"; "Italian"]) as [-> | H].
  - eexists. reflexivity.
  - assert (A : Forall (fun v => exists s, first_suggestion v = Ok s)
                       (map snd RestaurantManager.suggestions)).
    { repeat constructor; eexists; reflexivity. }
    rewrite Forall_forall in A. exact (A _ H).
Qed.

(** ** The total of the home page *)

(** X11: for a table with rows, the total the home page shows is the total
    of the first line of the insights; with no file the home page shows
    0.00, where the insights say that there is nothing to analyze. *)
Theorem home_total_agrees_with_insights (F : Type) (lib : FloatLib F)
  (r : Expense F) (rs : list (Expense F)) :
  ordered (map Amount (r :: rs)) ->
  (exists total rest,
     Home.total_expenses (Some (Table (r :: rs)))
     = (Ok ("₹" ++ total)%string, Some (Table (r :: rs))) /\
     fst (ExpenseManager.get_spending_insights (Some (Table (r :: rs))))
     = Ok (("💰 Total spent: ₹" ++ total)%string :: rest)) /\
  Home.total_expenses (@None (csv_text F)) = (Ok "₹0.00", None).
Proof.
  intros Ho. split; [|reflexivity].
  destruct (insights_of_rows r rs Ho) as (i & j & most & least & _ & _ & E).
  exists (format_2f (series_sum (map Amount (r :: rs)))). eexists.
  split; [reflexivity|]. rewrite E. reflexivity.
Qed.

Lemma home_total_example :
  ordered (map Amount example_expenses) /\
  Home.total_expenses (Some (Table example_expenses))
  = (Ok "₹170.00", Some (Table example_expenses)).
Proof.
  split; [exact example_expenses_ordered|].
  destruct (proj1 (home_total_agrees_with_insights float float64 _ _
                     example_expenses_ordered)) as (total & rest & E & _).
  unfold example_expenses. rewrite E. vm_compute in E.
  injection E as <-. reflexivity.
Defined.

(** ** The button that adds an expense *)


Lemma ascii_characters (l : list ascii) :
  forallb (fun c => (code c <? 128)%nat) l = true ->
  characters l = map (fun c => [c]) l.
Proof.
  induction l as [|c l IH]; simpl; [reflexivity|].
  intros H. apply andb_prop in H as [_ Hl]. rewrite (IH Hl).
  destruct l as [|d l]; simpl; [reflexivity|].
  simpl in Hl. apply andb_prop in Hl as [Hd _].
  unfold continuation, between.
  apply Nat.ltb_lt in Hd.
  replace (128 <=? code d)%nat with false; [reflexivity|].
  symmetry. apply Nat.leb_gt. exact Hd.
Qed.

Lemma digit_char_code (d : Z) :
  (0 <= d <= 9)%Z -> code (digit_char d) = (48 + Z.to_nat d)%nat.
Proof.
  intros H. unfold code, digit_char. apply nat_ascii_embedding. lia.
Qed.

(** X13: the date the page puts in the box by default, the day in ISO
    form, always passes the check of the button. *)
Theorem default_date_passes_check (y m d : Z) :
  (1 <= y <= 9999)%Z -> (1 <= m <= 12)%Z -> (1 <= d <= 31)%Z ->
  date_shape (isoformat y m d) = true.
Proof.
  intros Hy Hm Hd. unfold date_shape, py_len, char_is.
  assert (Hc : forall k, (0 <= k <= 9)%Z ->
                         (code (digit_char k) <? 128)%nat = true).
  { intros k Hk. rewrite (digit_char_code k Hk). apply Nat.ltb_lt. lia. }
  rewrite ascii_characters.
  - reflexivity.
  - unfold isoformat, pad4, pad2.
    cbn -[digit_char code Nat.ltb Z.div Z.modulo].
    rewrite !Hc; [reflexivity | ..];
      Z.to_euclidean_division_equations; lia.
Qed.

Lemma default_date_example :
  date_shape (isoformat 2024 3 5) = true.
Proof.
  apply default_date_passes_check; lia.
Defined.

(** ** Writing a time and reading it back *)

Lemma Z_range_ind (P : Z -> Prop) (lo : Z) (n : nat) :
  Forall P (map (fun i => lo + Z.of_nat i)%Z (seq 0 n)) ->
  forall v, (lo <= v < lo + Z.of_nat n)%Z -> P v.
Proof.
  intros H v Hv. rewrite Forall_forall in H. apply H.
  apply in_map_iff. exists (Z.to_nat (v - lo)). split; [lia|].
  apply in_seq. lia.
Qed.

Ltac by_cases lo n :=
  intros v Hv; revert v Hv; apply (Z_range_ind _ lo n); cbn [seq map];
  repeat (constructor;
          [intros rest; split; [reflexivity | eexists; reflexivity]|]);
  constructor.

Lemma reads_month : forall v, (1 <= v < 1 + 12)%Z -> reads "m" v.
Proof. by_cases 1%Z 12%nat. Qed.

Lemma reads_day : forall v, (1 <= v < 1 + 31)%Z -> reads "d" v.
Proof. by_cases 1%Z 31%nat. Qed.

Lemma reads_hour : forall v, (0 <= v < 0 + 24)%Z -> reads "H" v.
Proof. by_cases 0%Z 24%nat. Qed.

Lemma reads_minute : forall v, (0 <= v < 0 + 60)%Z -> reads "M" v.
Proof. by_cases 0%Z 60%nat. Qed.

Lemma years_ok :
  forallb year_ok (map (fun i => 1000 + Z.of_nat i)%Z (seq 0 (Z.to_nat 9000))) = true.
Proof. vm_compute. reflexivity. Qed.

Lemma reads_year (y : Z) (rest : list ascii) :
  (1000 <= y <= 9999)%Z ->
  directive "Y" (list_ascii_of_string (Float64.str_of_Z y) ++ rest)
  = [(y, rest)].
Proof.
  intros Hy. pose proof years_ok as H. rewrite forallb_forall in H.
  assert (Hok : year_ok y = true).
  { apply H. apply in_map_iff. exists (Z.to_nat (y - 1000)).
    split; [lia|]. apply in_seq. lia. }
  unfold year_ok in Hok.
  destruct (list_ascii_of_string (Float64.str_of_Z y))
    as [|c1 [|c2 [|c3 [|c4 [|c5 l]]]]]; try discriminate.
  apply andb_prop in Hok as [Hd Hv]. apply Z.eqb_eq in Hv.
  simpl app. unfold directive, alt4. now rewrite Hd, Hv.
Qed.

Lemma days_in_month_le (y m : Z) : (days_in_month y m <= 31)%Z.
Proof.
  unfold days_in_month.
  destruct (m =? 2)%Z; [destruct (leap y); lia|].
  destruct ((m =? 4) || (m =? 6) || (m =? 9) || (m =? 11))%Z; lia.
Qed.

Lemma list_ascii_app (a b : string) :
  list_ascii_of_string (a ++ b)
  = list_ascii_of_string a ++ list_ascii_of_string b.
Proof. induction a as [|c a IH]; simpl; [reflexivity | now rewrite IH]. Qed.

Lemma hd_flat_map {A B : Type} (f : A -> list B) (a : A) (l : list A)
  (x : B) :
  hd_error (f a) = Some x -> hd_error (flat_map f (a :: l)) = Some x.
Proof. simpl. destruct (f a); simpl; congruence. Qed.

Section Steps.

Variables (fmt' : list ascii) (ws : bool) (rest : list ascii) (acc : fields)
          (x : fields * list ascii).

Lemma step_two (c : ascii) (v : Z) :
  In c ["m"; "d"; "H"; "M"]%char -> reads c v ->
  hd_error (matches fmt' false rest (set_field c v acc)) = Some x ->
  hd_error (matches ("%"%char :: c :: fmt') ws
              (list_ascii_of_string (pad2 v) ++ rest) acc) = Some x.
Proof.
  intros Hc Hr Hx. destruct (Hr rest) as [_ [more E]].
  assert (M : matches ("%"%char :: c :: fmt') ws
                (list_ascii_of_string (pad2 v) ++ rest) acc
              = flat_map (fun alt => matches fmt' false (snd alt)
                                       (set_field c (fst alt) acc))
                  (directive c (list_ascii_of_string (pad2 v) ++ rest))).
  { destruct Hc as [<- | [<- | [<- | [<- | []]]]]; reflexivity. }
  rewrite M, E. apply hd_flat_map. exact Hx.
Qed.

Lemma step_year (y : Z) :
  (1000 <= y <= 9999)%Z ->
  hd_error (matches fmt' false rest (set_field "Y" y acc)) = Some x ->
  hd_error (matches ("%"%char :: "Y"%char :: fmt') ws
              (list_ascii_of_string (Float64.str_of_Z y) ++ rest) acc)
  = Some x.
Proof.
  intros Hy Hx.
  change (hd_error
            (flat_map (fun alt => matches fmt' false (snd alt)
                                    (set_field "Y" (fst alt) acc))
               (directive "Y"
                  (list_ascii_of_string (Float64.str_of_Z y) ++ rest)))
          = Some x).
  rewrite (reads_year y rest Hy). apply hd_flat_map. exact Hx.
Qed.

Lemma step_dash :
  hd_error (matches fmt' false rest acc) = Some x ->
  hd_error (matches ("-"%char :: fmt') ws ("-"%char :: rest) acc) = Some x.
Proof. intros H. exact H. Qed.

Lemma step_colon :
  hd_error (matches fmt' false rest acc) = Some x ->
  hd_error (matches (":"%char :: fmt') ws (":"%char :: rest) acc) = Some x.
Proof. intros H. exact H. Qed.

Lemma step_space :
  space_len rest = 0%nat ->
  hd_error (matches fmt' true rest acc) = Some x ->
  hd_error (matches (" "%char :: fmt') false (" "%char :: rest) acc) = Some x.
Proof.
  intros Hs Hx.
  change (hd_error
            (flat_map (fun r => matches fmt' true r acc)
               (space_runs (" "%char :: rest))) = Some x).
  assert (E : space_runs (" "%char :: rest) = [rest]).
  { unfold space_runs. simpl length.
    change (space_rests (S (length rest)) (" "%char :: rest))
      with (rest :: space_rests (length rest) rest).
    destruct (length rest); simpl; [reflexivity|]. now rewrite Hs. }
  rewrite E. apply hd_flat_map. exact Hx.
Qed.

End Steps.

(** A time written with [%Y-%m-%d %H:%M] is read back, by the same format,
    as the time cut to its minute. *)
Lemma strptime_of_strftime (t : datetime) :
  valid_datetime t = true -> (1000 <= year t)%Z ->
  py_strptime (strftime t "%Y-%m-%d %H:%M") "%Y-%m-%d %H:%M"
  = Ok (to_the_minute t).
Proof.
  intros Hv Hy. unfold valid_datetime in Hv.
  repeat (apply andb_prop in Hv as [Hv ?]).
  repeat match goal with
         | H : (_ <=? _)%Z = true |- _ => apply Z.leb_le in H
         end.
  unfold py_strptime, strftime.
  cbn [list_ascii_of_string strftime_list format_directive].
  assert (B : bad_directive
                ["%"; "Y"; "-"; "%"; "m"; "-"; "%"; "d"; " ";
                 "%"; "H"; ":"; "%"; "M"]%char = false) by reflexivity.
  rewrite B. clear B.
  repeat (rewrite list_ascii_app; cbn [list_ascii_of_string app]).
  match goal with
  | |- match ?m with _ => _ end = _ =>
      assert (Hhd : hd_error m
                    = Some ({| f_year := year t; f_month := month t;
                               f_day := day t; f_hour := hour t;
                               f_minute := minute t |}, []))
  end.
  { apply step_year; [lia|]. apply step_dash.
    apply step_two; [simpl; tauto | apply reads_month; lia |].
    apply step_dash.
    apply step_two; [simpl; tauto | apply reads_day|].
    { pose proof (days_in_month_le (year t) (month t)). lia. }
    apply step_space;
      [exact (proj1 (reads_hour (hour t) ltac:(lia) _))|].
    apply step_two; [simpl; tauto | apply reads_hour; lia |].
    apply step_colon.
    apply step_two; [simpl; tauto | apply reads_minute; lia |].
    reflexivity. }
  match goal with
  | |- match ?m with _ => _ end = _ => destruct m as [|[f r] l]
  end; [discriminate|].
  simpl in Hhd. injection Hhd as -> ->.
  unfold make_datetime, to_the_minute. cbn [f_year f_month f_day f_hour f_minute].
  repeat match goal with
         | H : (_ <= _)%Z |- _ => apply Z.leb_le in H; rewrite ?H
         end.
  reflexivity.
Qed.

(** ** The button that adds a reminder *)

(** X14: pressed with a text that is not empty, the button [Add Reminder]
    stores the reminder with the time of the pickers written to the
    minute; that text is read back by [check_reminders] as the same time,
    so that the reminder is due from that minute on, and the list shows
    it formatted. *)
Theorem added_reminder_is_read_back (rs : list pyval) (task_text : string)
  (when now : datetime) (pg : list element) :
  forallb is_dict rs = true ->
  nonempty task_text = true ->
  valid_datetime when = true -> (1000 <= year when)%Z ->
  let r := reminder (strip task_text) (strftime when "%Y-%m-%d %H:%M") false in
  add_reminder_pressed true task_text when (pg, stored rs)
  = (Ok true, (pg ++ [Success "✅ Reminder added!"],
               stored (map with_completed rs ++ [r]))) /\
  @due py_strptime now r = datetime_le (to_the_minute when) now /\
  @time_str py_strptime r
  = Ok (PStr (strftime (to_the_minute when) "%b %d, %I:%M %p")).
Proof.
  intros Hd Hn Hv Hy r. split; [|split].
  - unfold add_reminder_pressed. rewrite Hn. simpl andb. cbv iota.
    cbn -[ReminderManager.add strftime]. unfold on_file, show.
    cbn -[ReminderManager.add strftime].
    pose proof (add_to_loaded (stored rs) (map with_completed rs)
                  (task_text, strftime when "%Y-%m-%d %H:%M")
                  (f_equal fst (load_stored rs Hd))) as [E _].
    simpl fst in E. simpl snd in E. rewrite E. reflexivity.
  - unfold due, r, reminder, is_completed, time_text, field.
    cbn -[strftime strptime datetime_le date_le date_of].
    change (@strptime py_strptime) with py_strptime.
    now rewrite (strptime_of_strftime when Hv Hy).
  - unfold time_str, r, reminder.
    cbn -[strftime strptime]. change (@strptime py_strptime) with py_strptime.
    now rewrite (strptime_of_strftime when Hv Hy).
Qed.

Lemma added_reminder_example :
  add_reminder_pressed true " tea " example_now ([], stored [])
  = (Ok true, ([Success "✅ Reminder added!"],
               stored [reminder "tea" "2024-06-01 00:00" false])).
Proof.
  exact (proj1 (added_reminder_is_read_back [] " tea " example_now
                  example_now [] eq_refl eq_refl eq_refl
                  ltac:(cbn; lia))).
Defined.

(** ** The toggle of a reminder *)

Lemma populated_fields (r : pyval) :
  populated r = true ->
  exists d t s b,
    r = PDict d /\ dict_get "task" d = Some (PStr t) /\
    dict_get "time" d = Some (PStr s) /\
    dict_get "completed" d = Some (PBool b).
Proof.
  destruct r as [| | | | |d]; try discriminate. unfold populated, field.
  destruct (dict_get "task" d) as [[]|] eqn:Et; try discriminate.
  destruct (dict_get "time" d) as [[]|] eqn:Es; try discriminate.
  destruct (dict_get "completed" d) as [[]|] eqn:Ec; try discriminate.
  intros _. now exists d, s, s0, b.
Qed.

Lemma dict_get_set (k k' : string) (v : pyval) (d : dict) :
  dict_get k (dict_set k' v d)
  = if String.eqb k k' then Some v else dict_get k d.
Proof.
  induction d as [|[k0 v0] d IH]; simpl.
  - destruct (String.eqb k k'); reflexivity.
  - destruct (String.eqb_spec k' k0) as [-> | Hn]; simpl.
    + destruct (String.eqb k k0); reflexivity.
    + destruct (String.eqb_spec k k0) as [-> | Hn'].
      * destruct (String.eqb_spec k0 k'); [congruence | reflexivity].
      * exact IH.
Qed.

Lemma dict_set_set (k : string) (v v' : pyval) (d : dict) :
  dict_get k d = Some v ->
  dict_set k v (dict_set k v' d) = d.
Proof.
  induction d as [|[k0 v0] d IH]; simpl; [discriminate|].
  destruct (String.eqb_spec k k0) as [-> | Hn]; simpl.
  - intros [= ->]. now rewrite String.eqb_refl.
  - intros H. destruct (String.eqb_spec k k0); [contradiction|].
    now rewrite (IH H).
Qed.

Lemma flipped_populated (r : pyval) :
  populated r = true ->
  populated (flipped r) = true /\
  is_completed (flipped r) = negb (is_completed r) /\
  flipped (flipped r) = r.
Proof.
  intros H. destruct (populated_fields r H) as (d & t & s & b & -> & Ht & Hs & Hc).
  unfold flipped at 1 2. unfold populated, is_completed, field.
  rewrite !dict_get_set. simpl. rewrite Ht, Hs, Hc. repeat split.
  unfold flipped, is_completed, field. rewrite dict_get_set. simpl.
  rewrite negb_involutive, Hc. f_equal. now apply dict_set_set.
Qed.

Lemma replace_nth {A : Type} (p : nat) (x y : A) (l : list A) :
  nth_error l p = Some y ->
  nth_error (replace p x l) p = Some x /\
  length (replace p x l) = length l /\
  replace p y (replace p x l) = l /\
  (forall q, q <> p -> nth_error (replace p x l) q = nth_error l q).
Proof.
  revert p. induction l as [|z l IH]; intros [|p]; simpl; try discriminate.
  - intros [= ->]. repeat split. intros [|q] Hq; [contradiction|reflexivity].
  - intros H. destruct (IH p H) as (H1 & H2 & H3 & H4). repeat split.
    + exact H1.
    + now rewrite H2.
    + now rewrite H3.
    + intros [|q] Hq; [reflexivity|]. apply H4. congruence.
Qed.

Lemma replace_forallb {A : Type} (f : A -> bool) (p : nat) (x : A)
  (l : list A) :
  forallb f l = true -> f x = true -> forallb f (replace p x l) = true.
Proof.
  revert p. induction l as [|z l IH]; intros [|p]; simpl; auto.
  - intros H Hx. apply andb_prop in H as [_ H]. now rewrite Hx.
  - intros H Hx. apply andb_prop in H as [Hz H]. now rewrite Hz, IH.
Qed.

Lemma view_positions_populated (v : view) (items : list pyval) :
  forall p, forallb populated items = true ->
  view_positions v items p = Ok (positions_of v items p).
Proof.
  induction items as [|r items IH]; intros p; simpl; [reflexivity|].
  intros H. apply andb_prop in H as [Hr Hl].
  destruct (populated_fields r Hr) as (d & t & s & b & -> & _ & _ & Hc).
  unfold shown, is_completed, field. rewrite Hc.
  destruct v; cbn; rewrite ?Hc; cbn; rewrite (IH _ Hl); cbn;
    try destruct b; reflexivity.
Qed.

Lemma positions_of_in (v : view) (items : list pyval) :
  forall p q, In q (positions_of v items p) ->
  exists r, nth_error items (q - p) = Some r /\ shown v r = true /\
            (p <= q)%nat.
Proof.
  induction items as [|r items IH]; intros p q; simpl; [contradiction|].
  assert (S : In q (positions_of v items (S p)) ->
              exists r0, nth_error (r :: items) (q - p) = Some r0 /\
                         shown v r0 = true /\ (p <= q)%nat).
  { intros H. destruct (IH _ _ H) as (r0 & Hn & Hs & Hle).
    exists r0. replace (q - p)%nat with (S (q - S p)) by lia.
    repeat split; [exact Hn | exact Hs | lia]. }
  destruct (shown v r) eqn:Es; [|exact S].
  intros [<- | H]; [|exact (S H)].
  exists r. rewrite Nat.sub_diag. repeat split; [exact Es | lia].
Qed.


Section Toggle.

Context {lib : Strptime}.

(** The two lines of a row never fail on a populated record. *)
Lemma time_str_populated (r : pyval) :
  populated r = true -> exists v, time_str r = Ok v.
Proof.
  intros H. destruct (populated_fields r H) as (d & t & s & b & -> & _ & Hs & _).
  unfold time_str. cbn -[strftime]. rewrite Hs. cbn -[strftime].
  destruct (strptime s "%Y-%m-%d %H:%M"); cbn -[strftime]; rewrite ?Hs;
    eexists; reflexivity.
Qed.

Lemma show_rows_toggle (items : list pyval) (p : nat) (task : pyval)
  (after : list nat) :
  forall (before : list nat) (i : nat) (pg : list element) (fs : json_file),
  (forall q, In q before ->
     exists r, nth_error items q = Some r /\ populated r = true) ->
  nth_error items p = Some task -> populated task = true ->
  exists pg',
    show_rows (PList items) items (before ++ p :: after) i
      (Some (i + length before)%nat) (pg, fs)
    = (Ok true, (pg', stored (replace p (flipped task) items))).
Proof.
  induction before as [|q before IH]; intros i pg fs Hb Hp Ht.
  - destruct (populated_fields task Ht) as (d & t & s & b & -> & Htask & Hs & Hc).
    destruct (time_str_populated _ Ht) as [v Hv].
    simpl app. simpl length. rewrite Nat.add_0_r.
    cbn -[time_str]. unfold lift, show, on_file. rewrite Hp.
    cbn -[time_str]. rewrite Hc, Htask. cbn -[time_str]. rewrite Hv.
    cbn. rewrite Nat.eqb_refl. cbn.
    eexists. unfold flipped, is_completed, field. rewrite Hc. reflexivity.
  - destruct (Hb q (or_introl eq_refl)) as (r & Hq & Hr).
    destruct (populated_fields r Hr) as (d & t & s & b & -> & Htask & Hs & Hc).
    destruct (time_str_populated _ Hr) as [v Hv].
    assert (Hb' : forall q', In q' before ->
              exists r, nth_error items q' = Some r /\ populated r = true).
    { intros q' Hq'. apply Hb. now right. }
    simpl app. simpl length.
    cbn -[time_str]. unfold lift, show. rewrite Hq.
    cbn -[time_str]. rewrite Hc, Htask.
    cbn -[time_str]. rewrite Hv. cbn -[time_str].
    replace (i + S (length before) =? i)%nat with false
      by (symmetry; apply Nat.eqb_neq; lia).
    replace (i + S (length before))%nat with (S i + length before)%nat by lia.
    apply (IH (S i) _ fs Hb' Hp Ht).
Qed.

Lemma toggle_in_view (v : view) (items : list pyval) (i p : nat)
  (pg : list element) (fs : json_file) :
  forallb populated items = true ->
  nth_error (positions_of v items 0) i = Some p ->
  exists task pg',
    nth_error items p = Some task /\ populated task = true /\
    shown v task = true /\
    reminder_list (PList items) v (Some i) (pg, fs)
    = (Ok true, (pg', stored (replace p (flipped task) items))).
Proof.
  intros Hpop Hi.
  assert (Hin : forall q, In q (positions_of v items 0) ->
            exists r, nth_error items q = Some r /\ populated r = true /\
                      shown v r = true).
  { intros q Hq. destruct (positions_of_in v items 0 q Hq) as (r & Hn & Hs & _).
    rewrite Nat.sub_0_r in Hn. exists r. repeat split; try assumption.
    rewrite forallb_forall in Hpop. apply Hpop. exact (nth_error_In _ _ Hn). }
  destruct (Hin p (nth_error_In _ _ Hi)) as (task & Hp & Ht & Hs).
  destruct (nth_error_split _ _ Hi) as (before & after & E & Hlen).
  destruct (show_rows_toggle items p task after before 0
              (pg ++ [Subhead "📋 Your Reminders"]) fs) as [pg' R];
    [|exact Hp | exact Ht|].
  { intros q Hq. destruct (Hin q) as (r & Hn & Hr & _);
      [rewrite E; apply in_or_app; now left|]. now exists r. }
  exists task, pg'. repeat split; try assumption.
  unfold reminder_list. cbn -[show_rows view_positions]. unfold show, lift.
  cbn -[show_rows view_positions].
  destruct items as [|r0 items0]; [now destruct p|].
  cbn -[show_rows view_positions].
  rewrite (view_positions_populated v _ 0 Hpop), E.
  cbn -[show_rows]. rewrite <- Hlen. exact R.
Qed.

End Toggle.

Lemma populated_loaded (l : list pyval) :
  forallb populated l = true ->
  forallb is_dict l = true /\ map with_completed l = l.
Proof.
  induction l as [|r l IH]; simpl; [now split|].
  intros H. apply andb_prop in H as [Hr Hl]. destruct (IH Hl) as [Hd Hm].
  destruct (populated_fields r Hr) as (d & t & s & b & -> & _ & _ & Hc).
  split; [exact Hd|]. rewrite Hm. f_equal.
  unfold with_completed, dict_mem. now rewrite Hc.
Qed.


Lemma filter_replace_count {A : Type} (f : A -> bool) (p : nat) (x y : A)
  (l : list A) :
  nth_error l p = Some y -> f y = true -> f x = false ->
  S (length (filter f (replace p x l))) = length (filter f l).
Proof.
  revert p. induction l as [|z l IH]; intros [|p]; simpl; try discriminate.
  - intros [= ->] Hy Hx. now rewrite Hy, Hx.
  - intros H Hy Hx. destruct (f z); simpl; now rewrite (IH p H Hy Hx).
Qed.

Lemma pending_stored (l : list pyval) :
  forallb is_dict l = true ->
  Home.pending (stored l) = (Ok (length (filter not_done l)), stored l).
Proof.
  intros H. unfold Home.pending. cbn -[ReminderManager.load].
  rewrite (load_stored l H). pose proof (pending_loop l 0 H) as E.
  cbn in E |- *. unfold lift. now rewrite E.
Qed.

(** X15: on a list of loaded records, pressing the toggle of row [i] of a
    view turns over the [completed] of the record that row shows, and of
    no other, saves the whole list and asks for a rerun: the list keeps
    its length and every other record. *)
Theorem toggle_flips_the_row_pressed (lib : Strptime) (v : view)
  (items : list pyval) (i p : nat) (pg : list element) (fs : json_file) :
  forallb populated items = true ->
  nth_error (positions_of v items 0) i = Some p ->
  exists task pg',
    nth_error items p = Some task /\ shown v task = true /\
    reminder_list (PList items) v (Some i) (pg, fs)
    = (Ok true, (pg', stored (replace p (flipped task) items))) /\
    is_completed (flipped task) = negb (is_completed task) /\
    length (replace p (flipped task) items) = length items /\
    (forall q, q <> p ->
       nth_error (replace p (flipped task) items) q = nth_error items q).
Proof.
  intros Hpop Hi.
  destruct (toggle_in_view v items i p pg fs Hpop Hi)
    as (task & pg' & Hp & Ht & Hs & R).
  destruct (flipped_populated task Ht) as (_ & Hf & _).
  destruct (replace_nth p (flipped task) task items Hp) as (_ & Hl & _ & Ho).
  exists task, pg'. repeat split; assumption.
Qed.

Lemma toggle_example :
  forallb populated example_reminders = true /\
  snd (snd (@reminder_list py_strptime (PList example_reminders) Pending
              (Some 1%nat) ([], None)))
  = stored [reminder "first" "2024-01-01 09:00" false;
            reminder "second" "2099-01-01 09:00" true;
            reminder "third" "2024-01-01" false;
            reminder "fourth" "not-a-date" false].
Proof.
  split; [reflexivity|].
  destruct (toggle_flips_the_row_pressed py_strptime Pending
              example_reminders 1 1 [] None eq_refl eq_refl)
    as (task & pg' & Hp & _ & R & _).
  injection Hp as <-. exact (f_equal (fun x => snd (snd x)) R).
Defined.



(** X17: in the view of the pending records, pressing a toggle completes
    the record of its row: the pending count of the home page is one less
    on the file the page has saved. *)
Theorem completing_lowers_pending (lib : Strptime) (items : list pyval)
  (i p : nat) (pg : list element) (fs : json_file) :
  forallb populated items = true ->
  nth_error (positions_of Pending items 0) i = Some p ->
  exists pg' fs' k,
    reminder_list (PList items) Pending (Some i) (pg, fs)
    = (Ok true, (pg', fs')) /\
    fst (Home.pending (stored items)) = Ok (S k) /\
    fst (Home.pending fs') = Ok k.
Proof.
  intros Hpop Hi.
  destruct (toggle_in_view Pending items i p pg fs Hpop Hi)
    as (task & pg' & Hp & Ht & Hs & R).
  destruct (flipped_populated task Ht) as (Hfp & Hf & _).
  assert (Hpop1 : forallb populated (replace p (flipped task) items) = true)
    by now apply replace_forallb.
  assert (Hnd : forall r, populated r = true ->
                  not_done r = negb (is_completed r)).
  { intros r Hr.
    destruct (populated_fields r Hr) as (d & t & s & b & -> & _ & _ & Hc).
    unfold not_done, is_completed, field. now rewrite Hc. }
  exists pg', (stored (replace p (flipped task) items)),
         (length (filter not_done (replace p (flipped task) items))).
  split; [exact R|].
  rewrite (pending_stored _ (proj1 (populated_loaded _ Hpop))),
          (pending_stored _ (proj1 (populated_loaded _ Hpop1))).
  simpl. split; [|reflexivity]. f_equal. symmetry.
  apply (filter_replace_count not_done p (flipped task) task items Hp).
  - rewrite (Hnd _ Ht). exact Hs.
  - rewrite (Hnd _ Hfp), Hf. simpl in Hs. now rewrite Hs.
Qed.

Lemma completing_example :
  forallb populated example_reminders = true /\
  fst (Home.pending (stored example_reminders)) = Ok 4%nat /\
  fst (Home.pending
         (snd (snd (@reminder_list py_strptime (PList example_reminders)
                      Pending (Some 1%nat) ([], None)))))
  = Ok 3%nat.
Proof.
  split; [reflexivity|]. split; [reflexivity|].
  destruct (completing_lowers_pending py_strptime example_reminders 1 1 []
              None eq_refl eq_refl) as (pg' & fs' & k & R & Hk & Hk').
  vm_compute in Hk. injection Hk as <-.
  exact (eq_trans (f_equal (fun x => fst (Home.pending (snd (snd x)))) R)
                  Hk').
Defined.

(** ** Edges of the pages *)

Lemma view_positions_all (items : list pyval) :
  forall p, view_positions All items p = Ok (seq p (length items)).
Proof.
  induction items as [|r items IH]; intros p; simpl; [reflexivity|].
  cbn. now rewrite IH.
Qed.

(** X18: a record without a [time], which [check_reminders] passes over,
    makes the list of the reminders page raise a [KeyError]: the page has
    shown the first line of the row, and the file is as it was. *)
Theorem list_raises_without_time (lib : Strptime) (d : dict)
  (others : list pyval) (c t : pyval) (pressed : option nat)
  (pg : list element) (fs : json_file) :
  dict_get "completed" d = Some c ->
  dict_get "task" d = Some t ->
  dict_get "time" d = None ->
  reminder_list (PList (PDict d :: others)) All pressed (pg, fs)
  = (Raise (KeyError "time"),
     (pg ++ [Subhead "📋 Your Reminders";
             Line [PStr (if truthy c then "✅" else "⏰"); PStr " "; t]],
      fs)).
Proof.
  intros Hc Ht Htime. unfold reminder_list.
  cbn -[show_rows view_positions]. unfold show, lift.
  cbn -[show_rows view_positions]. rewrite view_positions_all.
  cbn -[show_rows seq]. simpl seq. simpl show_rows.
  cbn. unfold lift, show. cbn. rewrite Hc, Ht. cbn. rewrite Htime. cbn.
  now rewrite <- app_assoc.
Qed.

Lemma list_without_time_example :
  @reminder_list py_strptime
    (PList [PDict [("task", PStr "call"); ("completed", PBool false)]])
    All None ([], None)
  = (Raise (KeyError "time"),
     ([Subhead "📋 Your Reminders";
       Line [PStr "⏰"; PStr " "; PStr "call"]], None)).
Proof.
  exact (list_raises_without_time py_strptime
           [("task", PStr "call"); ("completed", PBool false)] []
           (PBool false) (PStr "call") None [] None eq_refl eq_refl eq_refl).
Defined.

Lemma strip_blanks (n : nat) : strip (blanks n) = "".
Proof.
  unfold strip.
  assert (E : characters (list_ascii_of_string (blanks n))
              = repeat [" "%char] n).
  { induction n as [|n IH]; simpl; [reflexivity|]. rewrite IH.
    destruct n; reflexivity. }
  assert (D : forall k, drop_spaces (repeat [" "%char] k) = []).
  { induction k as [|k IH]; simpl; [reflexivity | exact IH]. }
  now rewrite E, D.
Qed.

(** X19: the button [Add Reminder] tests the text before [add] strips it:
    a text of blanks passes the test and is stored as a reminder with an
    empty task. *)
Theorem blank_text_adds_empty_task (n : nat) (when : datetime)
  (pg : list element) :
  add_reminder_pressed true (blanks (S n)) when (pg, stored [])
  = (Ok true,
     (pg ++ [Success "✅ Reminder added!"],
      stored [reminder "" (strftime when "%Y-%m-%d %H:%M") false])).
Proof.
  unfold add_reminder_pressed.
  change (nonempty (blanks (S n))) with true. simpl andb. cbv iota.
  cbn -[ReminderManager.add strftime blanks]. unfold on_file, show.
  cbn -[ReminderManager.add strftime blanks].
  pose proof (add_to_loaded (stored []) []
                (blanks (S n), strftime when "%Y-%m-%d %H:%M") eq_refl)
    as [E _].
  cbn [fst snd] in E. rewrite E.
  unfold new_record. cbn [fst snd]. now rewrite strip_blanks.
Qed.

Section Weather200.

Context {lib : Requests}.

(** X20: with no key for the weather in the environment, or an empty one,
    the button [Get Weather] does nothing: the page asks the provider for
    nothing and shows no message; the same for the news. *)
Theorem missing_key_shows_nothing (WEATHER_API_KEY NEWS_API_KEY : option string)
  (city : string) (get_weather get_news : bool) (p : page) :
  key_set WEATHER_API_KEY = false ->
  key_set NEWS_API_KEY = false ->
  show_weather_news WEATHER_API_KEY NEWS_API_KEY city get_weather get_news p
  = (Ok tt,
     p ++ [Header "🌤 Weather & 📰 News"; Subheader "🌤 Live Weather";
           Markdown "---"; Subheader "📰 Latest News"]).
Proof.
  intros Hw Hn. unfold show_weather_news. rewrite Hw, Hn, !andb_false_r.
  cbn. unfold st. cbn. now rewrite <- !app_assoc.
Qed.

End Weather200.

Lemma missing_key_example :
  @show_weather_news (answers city_not_found) None (Some "") "Delhi"
    true true []
  = (Ok tt,
     [Header "🌤 Weather & 📰 News"; Subheader "🌤 Live Weather";
      Markdown "---"; Subheader "📰 Latest News"]).
Proof.
  exact (@missing_key_shows_nothing (answers city_not_found) None (Some "")
           "Delhi" true true [] eq_refl eq_refl).
Defined.



